(** * mcphost: the orchestration core, embedded and verified

    The development follows the two Go files of package [cmd]:
    the root command (constants, [pruneMessages], [runPrompt]) and the
    server front end ([runPromptNonInteractive]).

    - Go strings are byte strings ([string]); Go slices are lists, a nil
      slice and an empty one being the same list, except where the code
      tests a value against [nil] (there [option] is used).
    - [map[string]bool] and [map[string]MCPClient] are [gmap string _].
    - [int] and [time.Duration] are [Z], with the 64-bit wrap-around
      written where the code does arithmetic on them.
    - The LLM provider, the tool servers, the terminal renderer and
      [encoding/json] are outside the repository: they are the variables
      of the section [Orchestrator]; their effects act on an abstract
      world, and every observable action is recorded in a trace. *)

From Stdlib Require Import ZArith Lia.
From stdpp Require Import base option list strings gmap.

Local Open Scope Z_scope.

(** ** Go's [strings] package, the four functions the program calls *)

(** [strings.HasPrefix]. *)
Fixpoint strings_HasPrefix (s prefix : string) : bool :=
  match prefix, s with
  | EmptyString, _ => true
  | String _ _, EmptyString => false
  | String p prefix', String c s' =>
      if Ascii.eqb c p then strings_HasPrefix s' prefix' else false
  end.

(** [strings.Contains]: [substr] starts at some position of [s]. *)
Fixpoint strings_Contains (s substr : string) : bool :=
  strings_HasPrefix s substr ||
  match s with
  | EmptyString => false
  | String _ s' => strings_Contains s' substr
  end.

(** [strings.Split] for a non-empty separator: the pieces between the
    leftmost, non-overlapping occurrences of [sep].  [skip] counts the
    bytes of a separator that still have to be stepped over, [cur] is the
    piece being read. *)
Fixpoint split_go (sep : string) (skip : nat) (cur s : string) : list string :=
  match s with
  | EmptyString => [cur]
  | String c s' =>
      match skip with
      | S k => split_go sep k cur s'
      | O =>
          if strings_HasPrefix s sep
          then cur :: split_go sep (Nat.pred (String.length sep)) "" s'
          else split_go sep 0 (cur +:+ String c "") s'
      end
  end.

Definition strings_Split (s sep : string) : list string := split_go sep 0 "" s.

Fixpoint trimLeft (s : string) : string :=
  match s with
  | EmptyString => EmptyString
  | String c s' => if Ascii.is_space c then trimLeft s' else s
  end.

(** [strings.TrimSpace] on the ASCII white space (tab, line feed, vertical
    tab, form feed, carriage return, space). *)
Definition strings_TrimSpace (s : string) : string :=
  String.rev (trimLeft (String.rev (trimLeft s))).

(** ** Data model: packages [mcp] and [history] *)

(** Modelled from the spec: the items of a tool result ([mcp.Content], whose
    declaration is not among the sources): "a content segment may be plain
    text or another structured kind the core treats opaquely except for text
    extraction". *)
Inductive mcp_Content : Type :=
  | TextContent (text : string)
  | OpaqueContent (raw : string).

(** The [Content interface{}] field of a block holds nothing, the blocks of
    a synthesized error, or the raw items a tool server returned. *)
Inductive Payload (B : Type) : Type :=
  | NoPayload
  | Blocks (bs : list B)
  | RawItems (items : list mcp_Content).
Arguments NoPayload {B}.
Arguments Blocks {B} bs.
Arguments RawItems {B} items.

(** Modelled from the spec: the content segment [history.ContentBlock],
    whose declaration is not among the sources, "a tagged variant over text,
    invocation, result", with the fields the two files read and write.  The
    Go field [Type] is [Type_] here and the field [Content] is [Inner], the
    name [Content] being kept for the turn. *)
#[warnings="-register-all"]
Inductive ContentBlock : Type := mkContentBlock {
  Type_ : string;
  Text : string;
  ID : string;
  ToolUseID : string;
  Name : string;
  Input : string;
  Inner : Payload ContentBlock
}.

(** Modelled from the spec: the turn [history.HistoryMessage], whose
    declaration is not among the sources: a role and an ordered sequence of
    content segments. *)
Record HistoryMessage : Type := mkHistoryMessage {
  Role : string;
  Content : list ContentBlock
}.

(** The composite literals of the source, unset fields at their zero value. *)
Definition textBlock (text : string) : ContentBlock :=
  {| Type_ := "text"; Text := text; ID := ""; ToolUseID := ""; Name := "";
     Input := ""; Inner := NoPayload |}.

Definition toolUseBlock (id name input : string) : ContentBlock :=
  {| Type_ := "tool_use"; Text := ""; ID := id; ToolUseID := ""; Name := name;
     Input := input; Inner := NoPayload |}.

Definition toolResultBlock (toolUseID text : string)
    (inner : Payload ContentBlock) : ContentBlock :=
  {| Type_ := "tool_result"; Text := text; ID := ""; ToolUseID := toolUseID;
     Name := ""; Input := ""; Inner := inner |}.

(** ** [pruneMessages] *)

(** Indexing a [map[string]bool]: a missing key reads as [false]. *)
Definition index (m : gmap string bool) (k : string) : bool :=
  default false (m !! k).

(** First pass, inner loop: one block. *)
Definition collectBlock (ids : gmap string bool * gmap string bool)
    (block : ContentBlock) : gmap string bool * gmap string bool :=
  let '(toolUseIds, toolResultIds) := ids in
  if String.eqb (Type_ block) "tool_use"
  then (<[ID block := true]> toolUseIds, toolResultIds)
  else if String.eqb (Type_ block) "tool_result"
  then (toolUseIds, <[ToolUseID block := true]> toolResultIds)
  else (toolUseIds, toolResultIds).

(** First pass: the identifiers of all tool uses and of all tool results. *)
Definition collectIds (messages : list HistoryMessage)
    : gmap string bool * gmap string bool :=
  fold_left (fun ids msg => fold_left collectBlock (Content msg) ids)
            messages (∅, ∅).

(** Second pass, inner loop: the [keep] flag of one block. *)
Definition keep (toolUseIds toolResultIds : gmap string bool)
    (block : ContentBlock) : bool :=
  if String.eqb (Type_ block) "tool_use" then index toolResultIds (ID block)
  else if String.eqb (Type_ block) "tool_result"
  then index toolUseIds (ToolUseID block)
  else true.

Definition prunedBlocks (toolUseIds toolResultIds : gmap string bool)
    (msg : HistoryMessage) : list ContentBlock :=
  List.filter (keep toolUseIds toolResultIds) (Content msg).

Definition hasTextBlock (msg : HistoryMessage) : bool :=
  existsb (fun block => String.eqb (Type_ block) "text") (Content msg).

(** Second pass, outer loop; [prunedMessages] grows by [append], which is
    the cons of the recursive call here. *)
Fixpoint secondPass (toolUseIds toolResultIds : gmap string bool)
    (messages : list HistoryMessage) : list HistoryMessage :=
  match messages with
  | [] => []
  | msg :: rest =>
      let blocks := prunedBlocks toolUseIds toolResultIds msg in
      let tail := secondPass toolUseIds toolResultIds rest in
      if ((0 <? length blocks)%nat && String.eqb (Role msg) "assistant")
         || negb (String.eqb (Role msg) "assistant")
      then
        if (0 <? length blocks)%nat || hasTextBlock msg
        then {| Role := Role msg; Content := blocks |} :: tail
        else tail
      else tail
  end.

(** [messages[len(messages)-messageWindow:]]. *)
Definition window (messageWindow : Z) (messages : list HistoryMessage)
    : list HistoryMessage :=
  drop (Z.to_nat (Z.of_nat (length messages) - messageWindow)) messages.

(** [pruneMessages], the global [messageWindow] being its first argument.
    [None] is the run-time panic of the slice expression when the window is
    negative (the lower bound then exceeds the length). *)
Definition pruneMessages (messageWindow : Z) (messages : list HistoryMessage)
    : option (list HistoryMessage) :=
  if Z.of_nat (length messages) <=? messageWindow then Some messages
  else if messageWindow <? 0 then None
  else
    let kept := window messageWindow messages in
    let '(toolUseIds, toolResultIds) := collectIds kept in
    Some (secondPass toolUseIds toolResultIds kept).

(** The turn as the second pass rewrites it. *)
Definition rewritten (toolUseIds toolResultIds : gmap string bool)
    (msg : HistoryMessage) : HistoryMessage :=
  {| Role := Role msg; Content := prunedBlocks toolUseIds toolResultIds msg |}.

(** The second pass as a rule on single turns that does not look at the
    role: a turn stays exactly when a segment is left after filtering. *)
Definition keepTurn (toolUseIds toolResultIds : gmap string bool)
    (msg : HistoryMessage) : option HistoryMessage :=
  match prunedBlocks toolUseIds toolResultIds msg with
  | [] => None
  | _ :: _ => Some (rewritten toolUseIds toolResultIds msg)
  end.

(** A segment of the transcript: block [b] lies in some turn of [T]. *)
Definition segment (T : list HistoryMessage) (b : ContentBlock) : Prop :=
  ∃ m, m ∈ T ∧ b ∈ Content m.

(** Pairing: every invocation has a result that refers to it and every
    result refers to an invocation, both within [T]. *)
Definition paired (T : list HistoryMessage) : Prop :=
  (∀ b, segment T b → Type_ b = "tool_use" →
        ∃ b', segment T b' ∧ Type_ b' = "tool_result" ∧ ToolUseID b' = ID b)
  ∧
  (∀ b, segment T b → Type_ b = "tool_result" →
        ∃ b', segment T b' ∧ Type_ b' = "tool_use" ∧ ID b' = ToolUseID b).

(** The rule of the specification for the turns of the other roles, read on
    the window of [T]: such a turn stays when it has a text segment or had
    no segment at all. *)
Definition keptOtherRoles (messageWindow : Z) (T : list HistoryMessage) : Prop :=
  ∀ m, m ∈ window messageWindow T →
       Role m ≠ "assistant" →
       hasTextBlock m = true ∨ Content m = [] →
       ∃ P m', pruneMessages messageWindow T = Some P ∧ m' ∈ P ∧ Role m' = Role m.

(** ** The orchestrator: constants and interfaces *)

(** [time.Second], in nanoseconds. *)
Definition Second : Z := 1000000000.

Definition initialBackoff : Z := 1 * Second.
Definition maxBackoff : Z := 30 * Second.
Definition maxRetries : Z := 5.

(** Arithmetic on [int] and [time.Duration] wraps around at 64 bits. *)
Definition wrap64 (z : Z) : Z := (z + 2 ^ 63) mod 2 ^ 64 - 2 ^ 63.

(** A Go call that returns [(value, error)]; the error is kept as the text
    of [err.Error()]. *)
Inductive result (A : Type) : Type :=
  | Ok (a : A)
  | Err (err : string).
Arguments Ok {A} a.
Arguments Err {A} err.

(** Modelled from the spec: the interface [llm.ToolCall], whose declaration
    is not among the sources: an invocation has an "identifier,
    fully-qualified-or-bare name, argument object"; [J] is
    [map[string]interface{}]. *)
Record ToolCall (J : Type) : Type := mkToolCall {
  GetName : string;
  GetArguments : J;
  GetID : string
}.
Arguments mkToolCall {J} _ _ _.
Arguments GetName {J} _.
Arguments GetArguments {J} _.
Arguments GetID {J} _.

(** Modelled from the spec: the interface [llm.Message], whose declaration
    is not among the sources: a reply "exposes reply text (possibly empty),
    ordered list of requested tool invocations, role label, and optional
    token-usage counters". *)
Record Message (J : Type) : Type := mkMessage {
  GetRole : string;
  GetContent : string;
  GetToolCalls : list (ToolCall J);
  GetUsage : Z * Z
}.
Arguments mkMessage {J} _ _ _ _.
Arguments GetRole {J} _.
Arguments GetContent {J} _.
Arguments GetToolCalls {J} _.
Arguments GetUsage {J} _.

(** [mcp.CallToolResult]; [None] is a nil [Content] slice. *)
Record CallToolResult : Type := mkCallToolResult {
  ResultContent : option (list mcp_Content)
}.

(** What the two files consume and do not define: the provider
    ([llm.Provider], of which the specification gives the contract
    [CreateMessage]), and the libraries for JSON and for the terminal.  [W]
    is the state of everything out there (the provider, the tool servers,
    the terminal). *)
Class Environment : Type := {
  W : Type;
  JSONObject : Type;
  Tool : Type;
  (** [provider.CreateMessage(ctx, prompt, llmMessages, tools)] *)
  CreateMessage :
    string → list HistoryMessage → list Tool → W → result (Message JSONObject) * W;
  (** [json.Marshal]; its error is dropped by the callers, the bytes are
      then empty *)
  json_Marshal : JSONObject → string;
  (** [json.Unmarshal] into a [map[string]interface{}] *)
  json_Unmarshal : string → result JSONObject;
  (** the lipgloss styles [promptStyle] and [errorStyle] *)
  promptStyle_Render : string → string;
  errorStyle_Render : string → string;
  (** [renderer.Render], the global [renderer] being part of the world *)
  renderer_Render : W → string → result string;
  (** [updateRenderer()]: [Some err] when no renderer can be built *)
  updateRenderer : W → option string * W
}.

Section Orchestrator.
Context {env : Environment}.

(** [mcpclient.MCPClient], its method [CallTool] with the name and the
    arguments of the request. *)
Definition MCPClient : Type :=
  string → JSONObject → W → result CallToolResult * W.

(** What the program does to the outside, in order. *)
Inductive Event : Type :=
  | Printed (s : string)                      (* fmt.Print, Printf, Println *)
  | Logged (level msg : string)               (* log.Debug, Info, Warn, Error *)
  | Spun (title : string)                     (* spinner ... Run *)
  | Slept (d : Z)                             (* time.Sleep *)
  | Asked (prompt : string) (llmMessages : list HistoryMessage)
  | Dispatched (serverName toolName : string) (toolArgs : JSONObject).

Record State : Type := mkState {
  world : W;
  trace : list Event
}.

Definition emit (e : Event) (s : State) : State :=
  {| world := world s; trace := trace s ++ [e] |}.

Definition setWorld (w : W) (s : State) : State :=
  {| world := w; trace := trace s |}.

Definition nl : string := String (Ascii.ascii_of_nat 10) "".

(** *** Parts shared by the two entry points, as the source writes them twice *)

(** The text summary of a tool result: every text item followed by a space. *)
Definition resultText (content : list mcp_Content) : string :=
  fold_left (fun text item =>
               match item with
               | TextContent t => text +:+ (t +:+ " ")
               | OpaqueContent _ => text
               end) content "".

(** The variables of the loop over the tool calls. *)
Record Loop : Type := mkLoop {
  messageContent : list ContentBlock;
  toolResults : list ContentBlock;
  st : State
}.

(** The usage statistics are logged inside the loop, once per tool call. *)
Definition logUsage (message : Message JSONObject) (s : State) : State :=
  let '(inputTokens, outputTokens) := GetUsage message in
  if (inputTokens >? 0) || (outputTokens >? 0)
  then emit (Logged "info" "Usage statistics") s
  else s.

(** The end of the loop body, once [CallTool] has returned. *)
Definition recordResult (toolCall : ToolCall JSONObject) (toolName : string)
    (r : result CallToolResult) (content : list ContentBlock)
    (results : list ContentBlock) (s : State) : Loop :=
  match r with
  | Err err =>
      let errMsg := "Error calling tool " +:+ toolName +:+ ": " +:+ err in
      let s := emit (Printed (nl +:+ errorStyle_Render errMsg +:+ nl)) s in
      {| messageContent := content;
         toolResults :=
           results ++ [toolResultBlock (GetID toolCall) "" (Blocks [textBlock errMsg])];
         st := s |}
  | Ok toolResult =>
      match ResultContent toolResult with
      | Some items =>
          let s := emit (Logged "debug" "raw tool result content") s in
          let text := strings_TrimSpace (resultText items) in
          let s := emit (Logged "debug" "created tool result block") s in
          {| messageContent := content;
             toolResults :=
               results ++ [toolResultBlock (GetID toolCall) text (RawItems items)];
             st := s |}
      | None =>
          {| messageContent := content; toolResults := results; st := s |}
      end
  end.

(** *** [runPrompt] *)

(** The body of [for _, toolCall := range message.GetToolCalls()]. *)
Definition toolCallStep (mcpClients : gmap string MCPClient)
    (message : Message JSONObject) (acc : Loop)
    (toolCall : ToolCall JSONObject) : Loop :=
  let s := emit (Logged "info" "Using tool") (st acc) in
  let input := json_Marshal (GetArguments toolCall) in
  let content :=
    messageContent acc ++ [toolUseBlock (GetID toolCall) (GetName toolCall) input] in
  let s := logUsage message s in
  let skip (line : string) : Loop :=
    {| messageContent := content; toolResults := toolResults acc;
       st := emit (Printed line) s |} in
  match strings_Split (GetName toolCall) "__" with
  | [serverName; toolName] =>
      match mcpClients !! serverName with
      | None => skip ("Error: Server not found: " +:+ serverName +:+ nl)
      | Some mcpClient =>
          match json_Unmarshal input with
          | Err err => skip ("Error parsing tool arguments: " +:+ err +:+ nl)
          | Ok toolArgs =>
              let s := emit (Spun ("Running tool " +:+ toolName +:+ "...")) s in
              let s := emit (Dispatched serverName toolName toolArgs) s in
              let '(r, w) := mcpClient toolName toolArgs (world s) in
              recordResult toolCall toolName r content (toolResults acc) (setWorld w s)
          end
      end
  | _ => skip ("Error: Invalid tool name format: " +:+ GetName toolCall +:+ nl)
  end.

Definition toolLoop (mcpClients : gmap string MCPClient)
    (message : Message JSONObject) (acc : Loop)
    (toolCalls : list (ToolCall JSONObject)) : Loop :=
  fold_left (toolCallStep mcpClients message) toolCalls acc.

(** The first lines: a non-empty prompt is displayed and becomes a user turn. *)
Definition announce (prompt : string) (messages : list HistoryMessage)
    (s : State) : list HistoryMessage * State :=
  if String.eqb prompt "" then (messages, s)
  else
    (messages ++ [{| Role := "user"; Content := [textBlock prompt] |}],
     emit (Printed (nl +:+ promptStyle_Render ("You: " +:+ prompt) +:+ nl)) s).

Definition overloadedMessage : string :=
  "claude is currently overloaded. please wait a few minutes and try again".

(** The statements [backoff *= 2; if backoff > maxBackoff { backoff = maxBackoff }]. *)
Definition nextBackoff (backoff : Z) : Z :=
  let backoff := wrap64 (backoff * 2) in
  if backoff >? maxBackoff then maxBackoff else backoff.

(** The [for] loop around [provider.CreateMessage]; one unit of [fuel] per
    iteration, [None] when it runs out. *)
Fixpoint createWithRetry (fuel : nat) (tools : list Tool) (prompt : string)
    (llmMessages : list HistoryMessage) (backoff retries : Z) (s : State)
    : option (result (Message JSONObject) * State) :=
  match fuel with
  | O => None
  | S fuel' =>
      let s := emit (Spun "Thinking...") s in
      let s := emit (Asked prompt llmMessages) s in
      let '(r, w) := CreateMessage prompt llmMessages tools (world s) in
      let s := setWorld w s in
      match r with
      | Err err =>
          if strings_Contains err "overloaded_error" then
            if retries >=? maxRetries then Some (Err overloadedMessage, s)
            else
              let s := emit (Logged "warn" "Claude is overloaded, backing off...") s in
              let s := emit (Slept backoff) s in
              createWithRetry fuel' tools prompt llmMessages
                (nextBackoff backoff) (wrap64 (retries + 1)) s
          else Some (Err err, s)
      | Ok message => Some (Ok message, s)
      end
  end.

(** The display of the reply; [Some err] is the early return of the
    function when the renderer cannot be updated. *)
Definition display (message : Message JSONObject) (s : State)
    : option string * State :=
  let s :=
    match renderer_Render (world s) (nl +:+ "Assistant: ") with
    | Ok str => if String.eqb (GetContent message) "" then s else emit (Printed str) s
    | Err _ => s
    end in
  if String.eqb (GetContent message) "" then (None, s)
  else
    match updateRenderer (world s) with
    | (Some err, w) => (Some ("error updating renderer: " +:+ err), setWorld w s)
    | (None, w) =>
        let s := setWorld w s in
        match renderer_Render w (GetContent message +:+ nl) with
        | Err _ =>
            let s := emit (Logged "error" "Failed to render response") s in
            (None, emit (Printed (GetContent message +:+ nl)) s)
        | Ok str => (None, emit (Printed str) s)
        end
    end.

(** The text segment that opens the assistant turn, if there is text. *)
Definition textContent (message : Message JSONObject) : list ContentBlock :=
  if String.eqb (GetContent message) "" then []
  else [textBlock (GetContent message)].

(** One [tool] turn for each result. *)
Definition toolTurns (results : list ContentBlock) : list HistoryMessage :=
  map (fun toolResult => {| Role := "tool"; Content := [toolResult] |}) results.

(** How one activation of the function ends: with an error, with [nil], or with
    the recursive call on the empty prompt. *)
Inductive Round : Type :=
  | Failed (err : string) (messages : list HistoryMessage) (s : State)
  | Finished (messages : list HistoryMessage) (s : State)
  | Continue (messages : list HistoryMessage) (s : State).

(** The body of [runPrompt] up to its recursive call. *)
Definition promptRound (mcpClients : gmap string MCPClient) (tools : list Tool)
    (prompt : string) (messages : list HistoryMessage) (s : State)
    : option Round :=
  let '(messages, s) := announce prompt messages s in
  match createWithRetry (S (Z.to_nat maxRetries)) tools prompt messages
          initialBackoff 0 s with
  | None => None
  | Some (Err err, s) => Some (Failed err messages s)
  | Some (Ok message, s) =>
      match display message s with
      | (Some err, s) => Some (Failed err messages s)
      | (None, s) =>
          let final :=
            toolLoop mcpClients message
              {| messageContent := textContent message; toolResults := []; st := s |}
              (GetToolCalls message) in
          let messages :=
            messages ++ [{| Role := GetRole message; Content := messageContent final |}] in
          if (0 <? length (toolResults final))%nat
          then Some (Continue (messages ++ toolTurns (toolResults final)) (st final))
          else Some (Finished messages (emit (Printed nl) (st final)))
      end
  end.

(** [runPrompt]: the error ([None] is [nil]), the transcript behind the
    pointer [messages], and the state.  The recursion of the source has no
    bound, so it takes [fuel], one unit per activation. *)
Fixpoint runPrompt (fuel : nat) (mcpClients : gmap string MCPClient)
    (tools : list Tool) (prompt : string) (messages : list HistoryMessage)
    (s : State) : option (option string * list HistoryMessage * State) :=
  match fuel with
  | O => None
  | S fuel' =>
      match promptRound mcpClients tools prompt messages s with
      | None => None
      | Some (Failed err messages s) => Some (Some err, messages, s)
      | Some (Finished messages s) => Some (None, messages, s)
      | Some (Continue messages s) => runPrompt fuel' mcpClients tools "" messages s
      end
  end.

(** *** [runPromptNonInteractive] *)

(** The body of its loop over the tool calls: that of [runPrompt] without
    the first log line and without the spinner. *)
Definition serverToolCallStep (mcpClients : gmap string MCPClient)
    (message : Message JSONObject) (acc : Loop)
    (toolCall : ToolCall JSONObject) : Loop :=
  let s := st acc in
  let input := json_Marshal (GetArguments toolCall) in
  let content :=
    messageContent acc ++ [toolUseBlock (GetID toolCall) (GetName toolCall) input] in
  let s := logUsage message s in
  let skip (line : string) : Loop :=
    {| messageContent := content; toolResults := toolResults acc;
       st := emit (Printed line) s |} in
  match strings_Split (GetName toolCall) "__" with
  | [serverName; toolName] =>
      match mcpClients !! serverName with
      | None => skip ("Error: Server not found: " +:+ serverName +:+ nl)
      | Some mcpClient =>
          match json_Unmarshal input with
          | Err err => skip ("Error parsing tool arguments: " +:+ err +:+ nl)
          | Ok toolArgs =>
              let s := emit (Dispatched serverName toolName toolArgs) s in
              let '(r, w) := mcpClient toolName toolArgs (world s) in
              recordResult toolCall toolName r content (toolResults acc) (setWorld w s)
          end
      end
  | _ => skip ("Error: Invalid tool name format: " +:+ GetName toolCall +:+ nl)
  end.

Definition serverToolLoop (mcpClients : gmap string MCPClient)
    (message : Message JSONObject) (acc : Loop)
    (toolCalls : list (ToolCall JSONObject)) : Loop :=
  fold_left (serverToolCallStep mcpClients message) toolCalls acc.

(** How one activation ends: the four [return] statements. *)
Inductive ServerRound : Type :=
  | ServerFailed (err : string) (messages : list HistoryMessage) (s : State)
  | Replied (text : string) (messages : list HistoryMessage) (s : State)
  | Silent (messages : list HistoryMessage) (s : State)
  | Again (messages : list HistoryMessage) (s : State).

(** The body of [runPromptNonInteractive] up to its recursive call. *)
Definition serverRound (mcpClients : gmap string MCPClient) (tools : list Tool)
    (prompt : string) (messages : list HistoryMessage) (s : State)
    : ServerRound :=
  let s := emit (Asked prompt messages) s in
  let '(r, w) := CreateMessage prompt messages tools (world s) in
  let s := setWorld w s in
  match r with
  | Err err => ServerFailed err messages s
  | Ok message =>
      if negb (String.eqb (GetContent message) "")
      then Replied (GetContent message) messages s
      else
        (* the second test of the text, which the return above makes false *)
        let content :=
          if negb (String.eqb (GetContent message) "")
          then [textBlock (GetContent message)] else [] in
        let final :=
          serverToolLoop mcpClients message
            {| messageContent := content; toolResults := []; st := s |}
            (GetToolCalls message) in
        let messages :=
          messages ++ [{| Role := GetRole message; Content := messageContent final |}] in
        if (0 <? length (toolResults final))%nat
        then Again (messages ++ toolTurns (toolResults final)) (st final)
        else Silent messages (st final)
  end.

(** [runPromptNonInteractive]: the returned text, the error, the transcript
    behind the pointer, and the state. *)
Fixpoint runPromptNonInteractive (fuel : nat) (mcpClients : gmap string MCPClient)
    (tools : list Tool) (prompt : string) (messages : list HistoryMessage)
    (s : State) : option (string * option string * list HistoryMessage * State) :=
  match fuel with
  | O => None
  | S fuel' =>
      match serverRound mcpClients tools prompt messages s with
      | ServerFailed err messages s => Some ("", Some err, messages, s)
      | Replied text messages s => Some (text, None, messages, s)
      | Silent messages s => Some ("", None, messages, s)
      | Again messages s =>
          runPromptNonInteractive fuel' mcpClients tools "" messages s
      end
  end.

(** *** Reading a trace *)

(** The durations slept, in order. *)
Definition delays (t : list Event) : list Z :=
  omap (fun e => match e with Slept d => Some d | _ => None end) t.

(** The prompts the provider was asked with, in order. *)
Definition asked (t : list Event) : list (string * list HistoryMessage) :=
  omap (fun e => match e with Asked p ms => Some (p, ms) | _ => None end) t.

(** The tool calls sent to the tool servers, in order. *)
Definition dispatched (t : list Event) : list (string * string * JSONObject) :=
  omap (fun e => match e with
                 | Dispatched server tool args => Some (server, tool, args)
                 | _ => None
                 end) t.

(** The lines written by the [fmt] calls, in order. *)
Definition printed (t : list Event) : list string :=
  omap (fun e => match e with Printed line => Some line | _ => None end) t.

(** *** Notions the theorems are stated with *)

(** The provider answers its next [n] calls with the overloaded error. *)
Fixpoint overloadedFor (n : nat) (tools : list Tool) (prompt : string)
    (llmMessages : list HistoryMessage) (w : W) : bool :=
  match n with
  | O => true
  | S n' =>
      match CreateMessage prompt llmMessages tools w with
      | (Err err, w') =>
          strings_Contains err "overloaded_error"
          && overloadedFor n' tools prompt llmMessages w'
      | (Ok _, _) => false
      end
  end.

(** The delays of [n] failures in a row, the first being [backoff]. *)
Fixpoint schedule (n : nat) (backoff : Z) : list Z :=
  match n with
  | O => []
  | S n' => backoff :: schedule n' (nextBackoff backoff)
  end.

(** The renderer can show the reply: there is no text, or it can be updated. *)
Definition rendererReady (message : Message JSONObject) (w : W) : Prop :=
  GetContent message = "" ∨ (updateRenderer w).1 = None.

(** The world once the reply is displayed. *)
Definition renderedWorld (message : Message JSONObject) (w : W) : W :=
  if String.eqb (GetContent message) "" then w else (updateRenderer w).2.


(** The invocation segment of a tool call. *)
Definition invocation (toolCall : ToolCall JSONObject) : ContentBlock :=
  toolUseBlock (GetID toolCall) (GetName toolCall)
               (json_Marshal (GetArguments toolCall)).

(** The loop variables at the start of a loop that runs in world [w], and
    the loop variables [acc] extended by what such a loop did. *)
Definition blank (w : W) : Loop :=
  {| messageContent := []; toolResults := []; st := {| world := w; trace := [] |} |}.

Definition extend (acc d : Loop) : Loop :=
  {| messageContent := messageContent acc ++ messageContent d;
     toolResults := toolResults acc ++ toolResults d;
     st := {| world := world (st d); trace := trace (st acc) ++ trace (st d) |} |}.



(** What a loop body does depends on the world only: the rest of the loop
    variables is extended. *)
Definition framed (step : Loop → ToolCall JSONObject → Loop) : Prop :=
  ∀ acc toolCall, step acc toolCall = extend acc (step (blank (world (st acc))) toolCall).

End Orchestrator.




(** ** A scripted environment for the concrete scenarios *)

Module Mock.

(** The provider reads its replies from a script, the world; JSON objects
    are their own text; the terminal never fails. *)
Definition env : Environment := {|
  W := list (result (Message string));
  JSONObject := string;
  Tool := unit;
  CreateMessage := fun _ _ _ w =>
    match w with
    | [] => (Err "connection closed", [])
    | r :: w' => (r, w')
    end;
  json_Marshal := fun args => args;
  json_Unmarshal := fun input =>
    if strings_HasPrefix input "{" then Ok input
    else Err "unexpected end of JSON input";
  promptStyle_Render := fun s => s;
  errorStyle_Render := fun s => s;
  renderer_Render := fun _ s => Ok s;
  updateRenderer := fun w => (None, w)
|}.

(** A tool server: [forecast] answers with two text items around an image,
    [ping] succeeds with a nil content, every other tool fails. *)
Definition weather : @MCPClient env := fun toolName _ w =>
  if String.eqb toolName "forecast"
  then (Ok {| ResultContent :=
                Some [TextContent "sunny"; OpaqueContent "<png>"; TextContent "warm"] |},
        w)
  else if String.eqb toolName "ping"
  then (Ok {| ResultContent := None |}, w)
  else (Err "network unreachable", w).

Definition mcpClients : gmap string (@MCPClient env) := {[ "weather" := weather ]}.

(** A script as a world. *)
Definition world (script : list (result (Message string))) : @W env := script.

Definition start (script : list (result (Message string))) : @State env :=
  @mkState env script [].

Definition overloaded : result (Message string) :=
  Err "529 overloaded_error: Overloaded".


(** A reply with text only, and a reply that asks for one tool. *)
Definition say (text : string) : Message string :=
  {| GetRole := "assistant"; GetContent := text; GetToolCalls := [];
     GetUsage := (0, 0) |}.

Definition invoke (id name : string) : ToolCall string :=
  {| GetName := name; GetArguments := "{}"; GetID := id |}.

Definition ask (text id name : string) : Message string :=
  {| GetRole := "assistant"; GetContent := text;
     GetToolCalls := [invoke id name]; GetUsage := (12, 7) |}.

Definition user (prompt : string) : HistoryMessage :=
  {| Role := "user"; Content := [textBlock prompt] |}.

Definition assistant (content : list ContentBlock) : HistoryMessage :=
  {| Role := "assistant"; Content := content |}.

Definition tool (result : ContentBlock) : HistoryMessage :=
  {| Role := "tool"; Content := [result] |}.

(** The raw content the working tool returns. *)
Definition forecast : list mcp_Content :=
  [TextContent "sunny"; OpaqueContent "<png>"; TextContent "warm"].

(** A transcript of three turns whose first two are an invocation and its
    result. *)
Definition exchange : list HistoryMessage :=
  [assistant [toolUseBlock "a" "weather__forecast" "{}"];
   tool (toolResultBlock "a" "sunny warm" (RawItems forecast));
   user "thanks"].

End Mock.

(** ** Further notions, on [pruneMessages] *)

(** The turn [m'] is the turn [m] with some of its segments taken out. *)
Definition shrunk (m' m : HistoryMessage) : Prop :=
  Role m' = Role m ∧ Content m' `sublist_of` Content m.

(** A segment is an orphan in [T]: an invocation that no result of [T]
    refers to, or a result that refers to no invocation of [T]. *)
Definition orphan (T : list HistoryMessage) (b : ContentBlock) : Prop :=
  (Type_ b = "tool_use"
   ∧ ¬ ∃ b', segment T b' ∧ Type_ b' = "tool_result" ∧ ToolUseID b' = ID b)
  ∨ (Type_ b = "tool_result"
     ∧ ¬ ∃ b', segment T b' ∧ Type_ b' = "tool_use" ∧ ID b' = ToolUseID b).

(** ** Further notions, on the names of the tools *)

(** The byte 95, the underscore. *)
Definition underscore : Ascii.ascii :=
  Ascii.Ascii true true true true true false true false.

(** The last byte of [s] is an underscore. *)
Fixpoint endsInUnderscore (s : string) : bool :=
  match s with
  | EmptyString => false
  | String c EmptyString => Ascii.eqb c underscore
  | String _ s' => endsInUnderscore s'
  end.

(** The name under which the tool [toolName] of the server [serverName] is
    offered to the provider. *)
Definition qualified (serverName toolName : string) : string :=
  serverName +:+ "__" +:+ toolName.

(** ** Further notions, on the orchestrator *)

(** Every result segment of [T] answers an invocation of an earlier turn. *)
Definition answered (T : list HistoryMessage) : Prop :=
  ∀ i m b, T !! i = Some m → b ∈ Content m → Type_ b = "tool_result" →
    ∃ j m' b', (j < i)%nat ∧ T !! j = Some m' ∧ b' ∈ Content m'
               ∧ Type_ b' = "tool_use" ∧ ID b' = ToolUseID b.

Section OrchestratorNotions.
Context {env : Environment}.

(** One pass of a loop body adds the invocation segment and at most one
    result segment, which answers that invocation, and asks the provider
    nothing. *)
Definition answering (step : Loop → ToolCall JSONObject → Loop) : Prop :=
  ∀ w toolCall,
    let d := step (blank w) toolCall in
    messageContent d = [invocation toolCall]
    ∧ (toolResults d = []
       ∨ ∃ b, toolResults d = [b] ∧ Type_ b = "tool_result"
              ∧ ToolUseID b = GetID toolCall)
    ∧ asked (trace (st d)) = [].

(** The state in which an activation of [runPrompt] ends. *)
Definition roundState (r : Round) : State :=
  match r with
  | Failed _ _ s | Finished _ s | Continue _ s => s
  end.

(** The transcript with which an activation of [runPrompt] ends. *)
Definition roundMessages (r : Round) : list HistoryMessage :=
  match r with
  | Failed _ messages _ | Finished messages _ | Continue messages _ => messages
  end.

(** The same for [runPromptNonInteractive]. *)
Definition serverRoundMessages (r : ServerRound) : list HistoryMessage :=
  match r with
  | ServerFailed _ messages _ | Replied _ messages _
  | Silent messages _ | Again messages _ => messages
  end.

(** The assistant turn made of a reply: its text, if any, then one
    invocation segment for each tool call. *)
Definition assistantTurn (reply : Message JSONObject) : HistoryMessage :=
  {| Role := GetRole reply;
     Content := textContent reply ++ map invocation (GetToolCalls reply) |}.

End OrchestratorNotions.

(** ** The front ends: [runServer] and the loop of [runMCPHost] *)

(** The types [Request] and [Response] of the server; the Go field
    [Message] of the response is [Message_] here. *)
Record Request : Type := mkRequest { Prompt : string }.
Record Response : Type := mkResponse { Message_ : string }.

(** What the form of the interactive loop returns: the user has aborted,
    the form has failed, or a prompt was entered. *)
Inductive FormResult : Type :=
  | UserAborted
  | FormFailed (err : string)
  | Entered (prompt : string).

Section FrontEnds.
Context {env : Environment}.

(** [json.NewDecoder(r.Body).Decode(&request)], on the body of the request. *)
Variable decodeRequest : string → result Request.

(** Modelled from the spec: [handleSlashCommand], a function of the
    repository that is not among the sources, part of "the terminal UI,
    markdown rendering, slash-command parser": it reads the prompt and the
    transcript, writes to the terminal, and returns whether it handled the
    prompt, and an error. *)
Variable handleSlashCommand :
  string → list HistoryMessage → W → (bool * option string) * W.

(** What the handler of [/api/v1/chat] does with one request: it writes a
    status and perhaps a body, or the pruning panics.  The transcript is the
    variable [messages] that the handler closes over; requests are taken one
    at a time. *)
Inductive Served : Type :=
  | Written (status : Z) (body : option Response)
            (messages : list HistoryMessage) (s : State)
  | HandlerPanic (messages : list HistoryMessage) (s : State).

(** The function given to [http.HandleFunc] in [runServer]. *)
Definition chatHandler (messageWindow : Z) (fuel : nat)
    (mcpClients : gmap string MCPClient) (tools : list Tool)
    (body : string) (messages : list HistoryMessage) (s : State)
    : option Served :=
  match decodeRequest body with
  | Err _ => Some (Written 400 None messages s)
  | Ok request =>
      match runPromptNonInteractive fuel mcpClients tools (Prompt request) messages s with
      | None => None
      | Some (_, Some _, messages, s) => Some (Written 500 None messages s)
      | Some (message, None, messages, s) =>
          if (0 <? String.length message)%nat then
            match pruneMessages messageWindow messages with
            | None => Some (HandlerPanic messages s)
            | Some messages =>
                Some (Written 200 (Some {| Message_ := message |}) messages s)
            end
          else Some (Written 200 (Some {| Message_ := message |}) messages s)
      end
  end.

(** How one round of the loop [hostLoop] ends: the loop returns, goes round
    again, or the pruning panics. *)
Inductive HostStep : Type :=
  | Exit (err : option string) (s : State)
  | Next (messages : list HistoryMessage) (s : State)
  | HostPanic (s : State).

Definition hostState (step : HostStep) : State :=
  match step with
  | Exit _ s | Next _ s | HostPanic s => s
  end.

(** The body of the [for] loop of [hostLoop], from the result of the form
    on. *)
Definition hostIteration (messageWindow : Z) (fuel : nat)
    (mcpClients : gmap string MCPClient) (tools : list Tool)
    (form : FormResult) (messages : list HistoryMessage) (s : State)
    : option HostStep :=
  match form with
  | UserAborted => Some (Exit None (emit (Printed (nl +:+ "Goodbye!" +:+ nl)) s))
  | FormFailed err => Some (Exit (Some err) s)
  | Entered prompt =>
      if String.eqb prompt "" then Some (Next messages s)
      else
        let '((handled, err), w) := handleSlashCommand prompt messages (world s) in
        let s := setWorld w s in
        match err with
        | Some err => Some (Exit (Some err) s)
        | None =>
            if handled then Some (Next messages s)
            else
              match (if (0 <? length messages)%nat
                     then pruneMessages messageWindow messages
                     else Some messages) with
              | None => Some (HostPanic s)
              | Some messages =>
                  match runPrompt fuel mcpClients tools prompt messages s with
                  | None => None
                  | Some (Some err, _, s) => Some (Exit (Some err) s)
                  | Some (None, messages, s) => Some (Next messages s)
                  end
              end
        end
  end.

End FrontEnds.

(** ** [createProvider] *)

(** The byte 58, the colon. *)
Definition colon : Ascii.ascii :=
  Ascii.Ascii false true false true true true false false.

(** [strings.SplitN] for a non-empty separator and [n >= 1]: as
    [strings.Split], but the [n]-th piece is the rest of the string. *)
Fixpoint splitN_go (sep : string) (n skip : nat) (cur s : string) : list string :=
  match s with
  | EmptyString => [cur]
  | String c s' =>
      match skip with
      | S k => splitN_go sep n k cur s'
      | O =>
          match n with
          | S (S n') =>
              if strings_HasPrefix s sep
              then cur :: splitN_go sep (S n') (Nat.pred (String.length sep)) "" s'
              else splitN_go sep n 0 (cur +:+ String c "") s'
          | _ => [cur +:+ s]
          end
      end
  end.

Definition strings_SplitN (s sep : string) (n : nat) : list string :=
  splitN_go sep n 0 "" s.

(** The flags of the command that [createProvider] reads. *)
Record Flags : Type := mkFlags {
  anthropicAPIKey : string;
  anthropicBaseURL : string;
  openaiAPIKey : string;
  openaiBaseURL : string;
  googleAPIKey : string
}.

(** [os.Getenv]: a variable that is not set reads as the empty string. *)
Definition os_Getenv (environ : gmap string string) (key : string) : string :=
  default "" (environ !! key).

(** The call of a constructor of the packages [anthropic], [ollama],
    [openai] and [google] with which [createProvider] returns. *)
Inductive Construction : Type :=
  | NewAnthropic (apiKey baseURL model systemPrompt : string)
  | NewOllama (model systemPrompt : string)
  | NewOpenAI (apiKey baseURL model systemPrompt : string)
  | NewGoogle (apiKey model systemPrompt : string).

Definition createProvider (flags : Flags) (environ : gmap string string)
    (modelString systemPrompt : string) : result Construction :=
  match strings_SplitN modelString ":" 2 with
  | provider :: model :: _ =>
      if String.eqb provider "anthropic" then
        let apiKey := anthropicAPIKey flags in
        let apiKey :=
          if String.eqb apiKey "" then os_Getenv environ "ANTHROPIC_API_KEY" else apiKey in
        if String.eqb apiKey ""
        then Err "Anthropic API key not provided. Use --anthropic-api-key flag or ANTHROPIC_API_KEY environment variable"
        else Ok (NewAnthropic apiKey (anthropicBaseURL flags) model systemPrompt)
      else if String.eqb provider "ollama" then
        Ok (NewOllama model systemPrompt)
      else if String.eqb provider "openai" then
        let apiKey := openaiAPIKey flags in
        let apiKey :=
          if String.eqb apiKey "" then os_Getenv environ "OPENAI_API_KEY" else apiKey in
        if String.eqb apiKey ""
        then Err "OpenAI API key not provided. Use --openai-api-key flag or OPENAI_API_KEY environment variable"
        else Ok (NewOpenAI apiKey (openaiBaseURL flags) model systemPrompt)
      else if String.eqb provider "google" then
        let apiKey := googleAPIKey flags in
        let apiKey :=
          if String.eqb apiKey "" then os_Getenv environ "GOOGLE_API_KEY" else apiKey in
        let apiKey :=
          if String.eqb apiKey "" then os_Getenv environ "GEMINI_API_KEY" else apiKey in
        Ok (NewGoogle apiKey model systemPrompt)
      else Err ("unsupported provider: " +:+ provider)
  | _ => Err ("invalid model format. Expected provider:model, got " +:+ modelString)
  end.

(** The provider and the model that a construction stands for. *)
Definition providerName (c : Construction) : string :=
  match c with
  | NewAnthropic _ _ _ _ => "anthropic"
  | NewOllama _ _ => "ollama"
  | NewOpenAI _ _ _ _ => "openai"
  | NewGoogle _ _ _ => "google"
  end.

Definition modelName (c : Construction) : string :=
  match c with
  | NewAnthropic _ _ model _ | NewOllama model _
  | NewOpenAI _ _ model _ | NewGoogle _ model _ => model
  end.

(** The key a construction is given; [ollama] takes none. *)
Definition keyGiven (c : Construction) : option string :=
  match c with
  | NewAnthropic apiKey _ _ _ | NewOpenAI apiKey _ _ _ | NewGoogle apiKey _ _ => Some apiKey
  | NewOllama _ _ => None
  end.

(** The flag and the environment variable that hold the key of a
    construction. *)
Definition flagKey (flags : Flags) (c : Construction) : string :=
  match c with
  | NewAnthropic _ _ _ _ => anthropicAPIKey flags
  | NewOpenAI _ _ _ _ => openaiAPIKey flags
  | NewGoogle _ _ _ => googleAPIKey flags
  | NewOllama _ _ => ""
  end.

Definition envKey (c : Construction) : string :=
  match c with
  | NewAnthropic _ _ _ _ => "ANTHROPIC_API_KEY"
  | NewOpenAI _ _ _ _ => "OPENAI_API_KEY"
  | NewGoogle _ _ _ => "GOOGLE_API_KEY"
  | NewOllama _ _ => ""
  end.

(** Scenarios for the front ends: a decoder that takes the body for the
    prompt, and a slash-command handler that handles nothing. *)
Module Scenario.

Definition decodeRequest (body : string) : result Request :=
  Ok {| Prompt := body |}.

Definition handleSlashCommand (prompt : string) (messages : list HistoryMessage)
    (w : @W Mock.env) : (bool * option string) * @W Mock.env :=
  ((false, None), w).

Definition noFlags : Flags :=
  {| anthropicAPIKey := ""; anthropicBaseURL := ""; openaiAPIKey := "";
     openaiBaseURL := ""; googleAPIKey := "" |}.

Definition environ : gmap string string := {[ "ANTHROPIC_API_KEY" := "sk-ant" ]}.

End Scenario.

(** *** Facts about the two passes *)

Lemma index_insert_true (m : gmap string bool) (k k' : string) :
  index (<[k := true]> m) k' = true ↔ k = k' ∨ index m k' = true.
Proof.
  unfold index. destruct (decide (k = k')) as [->|Hne].
  - rewrite lookup_insert_eq. simpl. tauto.
  - rewrite lookup_insert_ne by done. split; [tauto|]. intros [?|?]; done.
Qed.

Lemma index_empty (k : string) : index ∅ k = false.
Proof. unfold index. by rewrite lookup_empty. Qed.

Lemma collectBlock_use ids b k :
  index (collectBlock ids b).1 k = true ↔
  index ids.1 k = true ∨ (Type_ b = "tool_use" ∧ ID b = k).
Proof.
  destruct ids as [u r]. unfold collectBlock.
  destruct (String.eqb_spec (Type_ b) "tool_use") as [Hu|Hu]; simpl.
  - rewrite index_insert_true. tauto.
  - destruct (String.eqb (Type_ b) "tool_result"); simpl; tauto.
Qed.

Lemma collectBlock_result ids b k :
  index (collectBlock ids b).2 k = true ↔
  index ids.2 k = true ∨ (Type_ b = "tool_result" ∧ ToolUseID b = k).
Proof.
  destruct ids as [u r]. unfold collectBlock.
  destruct (String.eqb_spec (Type_ b) "tool_use") as [Hu|Hu]; simpl.
  - split; [tauto|]. intros [?|[Ht _]]; [done|]. rewrite Hu in Ht. discriminate.
  - destruct (String.eqb_spec (Type_ b) "tool_result"); simpl.
    + rewrite index_insert_true. tauto.
    + tauto.
Qed.

Lemma collectBlocks_use bs : ∀ ids k,
  index (fold_left collectBlock bs ids).1 k = true ↔
  index ids.1 k = true ∨ ∃ b, b ∈ bs ∧ Type_ b = "tool_use" ∧ ID b = k.
Proof.
  induction bs as [|b bs IH]; intros ids k; simpl.
  - split; [tauto|]. intros [?|(b & Hb & _)]; [done|]. by apply elem_of_nil in Hb.
  - rewrite IH, collectBlock_use. split.
    + intros [[?|[??]]|(b' & ? & ? & ?)]; [tauto| |].
      * right. exists b. split; [left|done].
      * right. exists b'. split; [by right|done].
    + intros [?|(b' & [->|Hin]%elem_of_cons & ? & ?)]; [tauto|tauto|].
      right. by exists b'.
Qed.

Lemma collectBlocks_result bs : ∀ ids k,
  index (fold_left collectBlock bs ids).2 k = true ↔
  index ids.2 k = true ∨ ∃ b, b ∈ bs ∧ Type_ b = "tool_result" ∧ ToolUseID b = k.
Proof.
  induction bs as [|b bs IH]; intros ids k; simpl.
  - split; [tauto|]. intros [?|(b & Hb & _)]; [done|]. by apply elem_of_nil in Hb.
  - rewrite IH, collectBlock_result. split.
    + intros [[?|[??]]|(b' & ? & ? & ?)]; [tauto| |].
      * right. exists b. split; [left|done].
      * right. exists b'. split; [by right|done].
    + intros [?|(b' & [->|Hin]%elem_of_cons & ? & ?)]; [tauto|tauto|].
      right. by exists b'.
Qed.

Lemma collectIds_acc ms : ∀ ids k,
  let ids' := fold_left (fun ids msg => fold_left collectBlock (Content msg) ids) ms ids in
  (index ids'.1 k = true ↔
     index ids.1 k = true ∨ ∃ b, segment ms b ∧ Type_ b = "tool_use" ∧ ID b = k)
  ∧
  (index ids'.2 k = true ↔
     index ids.2 k = true ∨ ∃ b, segment ms b ∧ Type_ b = "tool_result" ∧ ToolUseID b = k).
Proof.
  induction ms as [|m ms IH]; intros ids k; simpl.
  - split; (split; [tauto|]); intros [?|(b & (m & Hm & _) & _)]; try done;
      by apply elem_of_nil in Hm.
  - destruct (IH (fold_left collectBlock (Content m) ids) k) as [IHu IHr].
    split.
    + rewrite IHu, collectBlocks_use. split.
      * intros [[?|(b & ? & ? & ?)]|(b & (m' & ? & ?) & ? & ?)]; [tauto| |].
        -- right. exists b. split; [|done]. exists m. split; [left|done].
        -- right. exists b. split; [|done]. exists m'. split; [by right|done].
      * intros [?|(b & (m' & [->|Hin]%elem_of_cons & ?) & ? & ?)]; [tauto| |].
        -- left. right. by exists b.
        -- right. exists b. split; [|done]. by exists m'.
    + rewrite IHr, collectBlocks_result. split.
      * intros [[?|(b & ? & ? & ?)]|(b & (m' & ? & ?) & ? & ?)]; [tauto| |].
        -- right. exists b. split; [|done]. exists m. split; [left|done].
        -- right. exists b. split; [|done]. exists m'. split; [by right|done].
      * intros [?|(b & (m' & [->|Hin]%elem_of_cons & ?) & ? & ?)]; [tauto| |].
        -- left. right. by exists b.
        -- right. exists b. split; [|done]. by exists m'.
Qed.

(** The first pass collects exactly the identifiers that occur. *)
Lemma collectIds_use ms k :
  index (collectIds ms).1 k = true ↔
  ∃ b, segment ms b ∧ Type_ b = "tool_use" ∧ ID b = k.
Proof.
  unfold collectIds. destruct (collectIds_acc ms (∅, ∅) k) as [-> _].
  simpl. rewrite index_empty. split; [|tauto]. by intros [?|?].
Qed.

Lemma collectIds_result ms k :
  index (collectIds ms).2 k = true ↔
  ∃ b, segment ms b ∧ Type_ b = "tool_result" ∧ ToolUseID b = k.
Proof.
  unfold collectIds. destruct (collectIds_acc ms (∅, ∅) k) as [_ ->].
  simpl. rewrite index_empty. split; [|tauto]. by intros [?|?].
Qed.

Lemma elem_of_prunedBlocks u r m b :
  b ∈ prunedBlocks u r m ↔ b ∈ Content m ∧ keep u r b = true.
Proof. unfold prunedBlocks. rewrite !list_elem_of_In. apply filter_In. Qed.

(** A text segment is never filtered out. *)
Lemma text_block_kept u r m :
  hasTextBlock m = true → prunedBlocks u r m ≠ [].
Proof.
  unfold hasTextBlock. intros (b & Hb & Ht)%existsb_exists.
  apply String.eqb_eq in Ht.
  assert (b ∈ prunedBlocks u r m) as Hin.
  { apply elem_of_prunedBlocks. split; [by apply list_elem_of_In|].
    unfold keep. by rewrite Ht. }
  intros Hnil. rewrite Hnil in Hin. by apply elem_of_nil in Hin.
Qed.

(** The second pass does not depend on the role after all. *)
Lemma secondPass_keepTurn u r ms :
  secondPass u r ms = omap (keepTurn u r) ms.
Proof.
  induction ms as [|m ms IH]; [done|]. simpl. rewrite IH. unfold keepTurn.
  destruct (prunedBlocks u r m) as [|b bs] eqn:Hb; simpl.
  - destruct (hasTextBlock m) eqn:Ht.
    + by apply (text_block_kept u r) in Ht.
    + by destruct (String.eqb (Role m) "assistant").
  - unfold rewritten. rewrite Hb. by destruct (String.eqb (Role m) "assistant").
Qed.

Lemma pruneMessages_above messageWindow T :
  0 <= messageWindow < Z.of_nat (length T) →
  pruneMessages messageWindow T =
  Some (omap (keepTurn (collectIds (window messageWindow T)).1
                       (collectIds (window messageWindow T)).2)
             (window messageWindow T)).
Proof.
  intros [H0 Hlt]. unfold pruneMessages.
  destruct (Z.leb_spec (Z.of_nat (length T)) messageWindow); [lia|].
  destruct (Z.ltb_spec messageWindow 0); [lia|].
  destruct (collectIds (window messageWindow T)) as [u r] eqn:Hc. simpl.
  by rewrite secondPass_keepTurn.
Qed.

(** The segments of the pruned window are the segments of the window that
    the filter lets through. *)
Lemma segment_keepTurn u r ms b :
  segment (omap (keepTurn u r) ms) b ↔ segment ms b ∧ keep u r b = true.
Proof.
  unfold segment. split.
  - intros (m' & (m & Hm & Hk)%list_elem_of_omap & Hb).
    unfold keepTurn in Hk. destruct (prunedBlocks u r m) eqn:Hp; [done|].
    injection Hk as <-. simpl in Hb.
    apply elem_of_prunedBlocks in Hb as [??]. split; [by exists m|done].
  - intros [(m & Hm & Hb) Hk].
    assert (b ∈ prunedBlocks u r m) as Hin by by apply elem_of_prunedBlocks.
    exists (rewritten u r m). split; [|done].
    apply list_elem_of_omap. exists m. split; [done|].
    unfold keepTurn. destruct (prunedBlocks u r m) eqn:Hp; [|done].
    by apply elem_of_nil in Hin.
Qed.

(** ** Theorems on [pruneMessages] *)

(** C9: at or below the window size pruning is a no-op: the transcript is
    returned unchanged. *)
Theorem pruneMessages_noop messageWindow (T : list HistoryMessage) :
  Z.of_nat (length T) <= messageWindow →
  pruneMessages messageWindow T = Some T.
Proof.
  intros H. unfold pruneMessages.
  by destruct (Z.leb_spec (Z.of_nat (length T)) messageWindow); [|lia].
Qed.

(** C3, as amended: above the window size (and for a window that is not
    negative) the pruned transcript is paired: every invocation left has a
    result left that refers to it, and every result left refers to an
    invocation left. *)
Theorem pruneMessages_paired messageWindow (T : list HistoryMessage) :
  0 <= messageWindow < Z.of_nat (length T) →
  ∃ P, pruneMessages messageWindow T = Some P ∧ paired P.
Proof.
  intros H. rewrite (pruneMessages_above _ _ H).
  set (kept := window messageWindow T).
  eexists. split; [done|]. split.
  - intros b [Hseg Hkeep]%segment_keepTurn Huse.
    unfold keep in Hkeep. rewrite Huse in Hkeep. simpl in Hkeep.
    apply collectIds_result in Hkeep as (b' & Hseg' & Hres & Href).
    exists b'. split; [|done]. apply segment_keepTurn. split; [done|].
    unfold keep. rewrite Hres. simpl. rewrite Href.
    apply collectIds_use. by exists b.
  - intros b [Hseg Hkeep]%segment_keepTurn Hres.
    unfold keep in Hkeep. rewrite Hres in Hkeep. simpl in Hkeep.
    apply collectIds_use in Hkeep as (b' & Hseg' & Huse & Hid).
    exists b'. split; [|done]. apply segment_keepTurn. split; [done|].
    unfold keep. rewrite Huse. simpl. rewrite Hid.
    apply collectIds_result. by exists b.
Qed.

(** C3 as stated fails below the window size: a lone invocation is returned
    as it is. *)
Lemma pruneMessages_paired_counterexample :
  let T := [{| Role := "assistant"; Content := [toolUseBlock "a" "srv__tool" "{}"] |}] in
  pruneMessages 1 T = Some T ∧ ¬ paired T.
Proof.
  split; [reflexivity|].
  intros [Huse _].
  destruct (Huse (toolUseBlock "a" "srv__tool" "{}")) as (b' & (m & Hm & Hb) & Ht & _).
  - eexists. split; [left|]. simpl. left.
  - reflexivity.
  - apply list_elem_of_singleton in Hm as ->. simpl in Hb.
    apply list_elem_of_singleton in Hb as ->. discriminate.
Qed.

(** C2, as amended: above the window size the pruned transcript consists of
    the turns of the window that keep a segment after filtering, whatever
    their role; so a turn left with zero segments is dropped (an assistant
    turn in particular, and also a turn that had no segments to begin with),
    and a turn that has a text segment is kept even if emptied of its tool
    segments. *)
Theorem pruneMessages_keeps_nonempty_turns messageWindow (T : list HistoryMessage) :
  0 <= messageWindow < Z.of_nat (length T) →
  let kept := window messageWindow T in
  let u := (collectIds kept).1 in
  let r := (collectIds kept).2 in
  pruneMessages messageWindow T = Some (omap (keepTurn u r) kept)
  ∧ (∀ m, prunedBlocks u r m = [] → keepTurn u r m = None)
  ∧ (∀ m, hasTextBlock m = true → keepTurn u r m = Some (rewritten u r m)).
Proof.
  intros H kept u r. split; [by apply pruneMessages_above|]. split.
  - intros m Hm. unfold keepTurn. by rewrite Hm.
  - intros m Hm%(text_block_kept u r). unfold keepTurn.
    by destruct (prunedBlocks u r m).
Qed.

(** C2 as stated fails: a user turn that had no segments to begin with is
    dropped. *)
Lemma pruneMessages_empty_turn_counterexample :
  ¬ keptOtherRoles 1 [{| Role := "user"; Content := [textBlock "a"] |};
                      {| Role := "user"; Content := [] |}].
Proof.
  intros H.
  destruct (H {| Role := "user"; Content := [] |}) as (P & m' & HP & Hin & _).
  - vm_compute. left.
  - discriminate.
  - by right.
  - vm_compute in HP. injection HP as <-. by apply elem_of_nil in Hin.
Qed.

(** ** Theorems on the orchestrator *)

Lemma wrap64_small z : - 2 ^ 63 <= z < 2 ^ 63 → wrap64 z = z.
Proof.
  intros H. unfold wrap64.
  change (2 ^ 64) with (2 * 2 ^ 63). rewrite Z.mod_small; lia.
Qed.

Lemma nextBackoff_min b :
  0 <= b <= maxBackoff → nextBackoff b = Z.min (b * 2) maxBackoff.
Proof.
  intros H. unfold nextBackoff.
  assert (maxBackoff < 2 ^ 62) by (vm_compute; reflexivity).
  rewrite wrap64_small by (change (2 ^ 63) with (2 * 2 ^ 62); lia).
  rewrite Z.gtb_ltb. destruct (Z.ltb_spec maxBackoff (b * 2)); lia.
Qed.

(** Fewer failures give a prefix of the delays of more failures. *)
Lemma schedule_take n : ∀ m b, (n <= m)%nat → schedule n b = take n (schedule m b).
Proof.
  induction n as [|n IH]; intros m b H; [done|].
  destruct m as [|m]; [lia|]. simpl. f_equal. apply IH. lia.
Qed.

(** The delays of five failures in a row, from the initial backoff. *)
Lemma schedule_five :
  schedule 5 initialBackoff = [1 * Second; 2 * Second; 4 * Second; 8 * Second; 16 * Second].
Proof. vm_compute. reflexivity. Qed.

Lemma schedule_five_formula k d :
  schedule 5 initialBackoff !! k = Some d →
  d = Z.min (initialBackoff * 2 ^ Z.of_nat k) maxBackoff.
Proof.
  rewrite schedule_five. intros H.
  do 5 (destruct k as [|k]; [injection H as <-; vm_compute; reflexivity|]).
  discriminate.
Qed.

Lemma schedule_five_monotone k d d' :
  schedule 5 initialBackoff !! k = Some d →
  schedule 5 initialBackoff !! S k = Some d' → d <= d'.
Proof.
  rewrite schedule_five. intros H H'.
  do 5 (destruct k as [|k];
        [injection H as <-; first [discriminate | injection H' as <-; by vm_compute]|]).
  discriminate.
Qed.

Lemma schedule_five_bounded d :
  d ∈ schedule 5 initialBackoff → d <= maxBackoff.
Proof.
  rewrite schedule_five. intros H.
  repeat (apply elem_of_cons in H as [->|H]; [by vm_compute|]).
  by apply elem_of_nil in H.
Qed.

Lemma schedule_length n b : length (schedule n b) = n.
Proof. revert b. induction n as [|n IH]; intros b; simpl; [done|]. by rewrite IH. Qed.

Section OrchestratorFacts.
Context {env : Environment}.

Lemma createWithRetry_ok n tools p m b k (s : State) msg w :
  CreateMessage p m tools (world s) = (Ok msg, w) →
  createWithRetry (S n) tools p m b k s =
  Some (Ok msg, setWorld w (emit (Asked p m) (emit (Spun "Thinking...") s))).
Proof. intros H. simpl. by rewrite H. Qed.

(** The retry loop from any of its states: it ends within the attempts that
    are left, sleeps the scheduled delays, asks once more than it sleeps, and
    ends in the terminal error when the provider stays overloaded. *)
Lemma createWithRetry_schedule tools p m : ∀ fuel b k (s : State),
  0 <= k <= maxRetries →
  (Z.to_nat (maxRetries - k) < fuel)%nat →
  ∃ r s' t n,
    createWithRetry fuel tools p m b k s = Some (r, s')
    ∧ trace s' = trace s ++ t
    ∧ delays t = schedule n b
    ∧ Z.of_nat n <= maxRetries - k
    ∧ length (asked t) = S n
    ∧ (overloadedFor (S (Z.to_nat (maxRetries - k))) tools p m (world s) = true →
         r = Err overloadedMessage ∧ Z.of_nat n = maxRetries - k).
Proof.
  induction fuel as [|fuel IH]; intros b k s Hk Hfuel; [lia|].
  simpl createWithRetry.
  destruct (CreateMessage p m tools (world s)) as [[msg|err] w] eqn:HC.
  - eexists _, _, [Spun "Thinking..."; Asked p m], 0%nat.
    split; [done|]. simpl. rewrite <- app_assoc. split_and!; try done; try lia.
    by rewrite HC.
  - destruct (strings_Contains err "overloaded_error") eqn:Hov.
    + rewrite Z.geb_leb. destruct (Z.leb_spec maxRetries k) as [Hge|Hlt].
      * eexists _, _, [Spun "Thinking..."; Asked p m], 0%nat.
        split; [done|]. simpl. rewrite <- app_assoc.
        split_and!; try done; try lia. intros _. split; [done|lia].
      * rewrite (wrap64_small (k + 1))
          by (unfold maxRetries in *; change (2 ^ 63) with 9223372036854775808; lia).
        edestruct (IH (nextBackoff b) (k + 1)) as (r & s' & t & n & Hrun & Htr & Hd & Hn & Ha & Hall);
          [lia|lia|].
        rewrite Hrun.
        eexists r, s',
          (Spun "Thinking..." :: Asked p m
             :: Logged "warn" "Claude is overloaded, backing off..." :: Slept b :: t),
          (S n).
        split; [done|]. split.
        { rewrite Htr. simpl. by rewrite <- !app_assoc. }
        split; [simpl; by rewrite Hd|]. split; [lia|].
        split; [simpl; simpl in Ha; by rewrite Ha|].
        intros Hover.
        replace (Z.to_nat (maxRetries - k)) with (S (Z.to_nat (maxRetries - (k + 1))))
          in Hover by lia.
        remember (S (Z.to_nat (maxRetries - (k + 1)))) as left.
        simpl in Hover. rewrite HC, Hov in Hover. simpl in Hover. subst left.
        destruct (Hall Hover) as [-> Hn']. split; [done|lia].
    + eexists _, _, [Spun "Thinking..."; Asked p m], 0%nat.
      split; [done|]. simpl. rewrite <- app_assoc. split_and!; try done; try lia.
      by rewrite HC, Hov.
Qed.

(** C4: the loop around [CreateMessage] always ends within [maxRetries + 1]
    attempts; the delay of the k-th failure is the initial value doubled k
    times and capped at the maximum, so the delays are non-decreasing and at
    most the maximum; [backoff] itself is doubled and capped by every
    failure; and a provider that stays overloaded beyond [maxRetries]
    retries gets the terminal error, not another retry. *)
Theorem backoff_policy tools prompt llmMessages (s : State) :
  (∀ b, 0 <= b <= maxBackoff → nextBackoff b = Z.min (b * 2) maxBackoff)
  ∧ ∃ r s' t,
      createWithRetry (S (Z.to_nat maxRetries)) tools prompt llmMessages
        initialBackoff 0 s = Some (r, s')
      ∧ trace s' = trace s ++ t
      ∧ (∀ k d, delays t !! k = Some d →
                d = Z.min (initialBackoff * 2 ^ Z.of_nat k) maxBackoff)
      ∧ (∀ k d d', delays t !! k = Some d → delays t !! S k = Some d' → d <= d')
      ∧ (∀ d, d ∈ delays t → d <= maxBackoff)
      ∧ (length (delays t) <= Z.to_nat maxRetries)%nat
      ∧ length (asked t) = S (length (delays t))
      ∧ (overloadedFor (S (Z.to_nat maxRetries)) tools prompt llmMessages (world s) = true →
           r = Err overloadedMessage ∧ length (delays t) = Z.to_nat maxRetries).
Proof.
  split; [apply nextBackoff_min|].
  destruct (createWithRetry_schedule tools prompt llmMessages
              (S (Z.to_nat maxRetries)) initialBackoff 0 s)
    as (r & s' & t & n & Hrun & Htr & Hd & Hn & Ha & Hall);
    [unfold maxRetries; lia|unfold maxRetries; simpl; lia|].
  exists r, s', t. split; [done|]. split; [done|].
  rewrite Z.sub_0_r in Hn, Hall.
  assert (n <= 5)%nat as Hn5 by (unfold maxRetries in Hn; lia).
  assert (length (delays t) = n) as Hlen by (by rewrite Hd, schedule_length).
  rewrite Hlen, Hd, (schedule_take n 5 _ Hn5).
  split_and!.
  - intros k d [Hk _]%lookup_take_Some. by apply schedule_five_formula.
  - intros k d d' [Hk _]%lookup_take_Some [Hk' _]%lookup_take_Some.
    by apply (schedule_five_monotone k).
  - intros d Hin. apply schedule_five_bounded.
    by apply (subseteq_take n).
  - unfold maxRetries. simpl. lia.
  - done.
  - intros Hover. destruct (Hall Hover) as [-> Hn']. split; [done|lia].
Qed.


(** C10: when the first reply has text, [runPromptNonInteractive] returns
    that text and [nil]; the transcript is the one it was given, and the
    trace has gained the question to the provider and nothing else: no tool
    call is dispatched, whatever invocations the reply asks for. *)
Theorem runPromptNonInteractive_text_reply mcpClients tools prompt messages
    (s : State) message w fuel :
  CreateMessage prompt messages tools (world s) = (Ok message, w) →
  GetContent message ≠ "" →
  runPromptNonInteractive (S fuel) mcpClients tools prompt messages s =
  Some (GetContent message, None, messages,
        setWorld w (emit (Asked prompt messages) s))
  ∧ dispatched (trace (setWorld w (emit (Asked prompt messages) s)))
    = dispatched (trace s).
Proof.
  intros HC Htext. split.
  - simpl. unfold serverRound. simpl. rewrite HC.
    by destruct (String.eqb_spec (GetContent message) "").
  - simpl. unfold dispatched. rewrite omap_app. simpl. by rewrite app_nil_r.
Qed.


(** *** The loop over the tool calls *)



Lemma toolCallStep_framed mcpClients message :
  framed (toolCallStep mcpClients message).
Proof.
  intros acc toolCall. unfold toolCallStep, recordResult, logUsage.
  destruct (GetUsage message) as [i o].
  destruct ((i >? 0) || (o >? 0)); simpl; repeat case_match; simplify_eq/=;
    unfold extend, emit, setWorld; simpl; by rewrite ?app_nil_r, <- ?app_assoc.
Qed.

Lemma serverToolCallStep_framed mcpClients message :
  framed (serverToolCallStep mcpClients message).
Proof.
  intros acc toolCall. unfold serverToolCallStep, recordResult, logUsage.
  destruct (GetUsage message) as [i o].
  destruct ((i >? 0) || (o >? 0)); simpl; repeat case_match; simplify_eq/=;
    unfold extend, emit, setWorld; simpl; by rewrite ?app_nil_r, <- ?app_assoc.
Qed.








(** *** One activation of [runPrompt] *)

Lemma state_eta (s : State) : {| world := world s; trace := trace s ++ [] |} = s.
Proof. destruct s. simpl. by rewrite app_nil_r. Qed.

(** A display that goes through adds only lines to the trace. *)
Lemma display_ready message (s : State) :
  rendererReady message (world s) →
  ∃ t, display message s =
         (None, {| world := renderedWorld message (world s); trace := trace s ++ t |})
       ∧ asked t = [] ∧ dispatched t = [].
Proof.
  unfold rendererReady, renderedWorld, display. intros Hready.
  destruct (String.eqb_spec (GetContent message) "") as [Hempty|Htext].
  - exists []. rewrite state_eta. by destruct (renderer_Render _ _).
  - destruct Hready as [?|Hready]; [done|].
    destruct (renderer_Render (world s) _) as [str|?]; simpl;
      destruct (updateRenderer (world s)) as [[?|] w]; simpl in *; try done;
      destruct (renderer_Render w _); unfold emit, setWorld; simpl;
      rewrite <- ?app_assoc; simpl; eexists; (split; [reflexivity|done]).
Qed.

(** The activation when the provider answers at the first attempt and the
    reply can be displayed. *)
Lemma promptRound_reply mcpClients tools prompt messages (s : State) message w :
  let llmMessages := (announce prompt messages s).1 in
  CreateMessage prompt llmMessages tools (world s) = (Ok message, w) →
  rendererReady message w →
  ∃ t, asked t = [(prompt, llmMessages)] ∧ dispatched t = []
    ∧ let final :=
        toolLoop mcpClients message
          {| messageContent := textContent message; toolResults := [];
             st := {| world := renderedWorld message w; trace := trace s ++ t |} |}
          (GetToolCalls message) in
      let messages' :=
        llmMessages ++ [{| Role := GetRole message; Content := messageContent final |}] in
      promptRound mcpClients tools prompt messages s =
      Some (if (0 <? length (toolResults final))%nat
            then Continue (messages' ++ toolTurns (toolResults final)) (st final)
            else Finished messages' (emit (Printed nl) (st final))).
Proof.
  intros llmMessages HC Hready. unfold promptRound.
  assert (∃ t0, (announce prompt messages s).2
                = {| world := world s; trace := trace s ++ t0 |}
                ∧ asked t0 = [] ∧ dispatched t0 = []) as (t0 & Hs0 & Ha0 & Hd0).
  { unfold announce. destruct (String.eqb prompt "").
    - exists []. by rewrite state_eta.
    - by eexists [_]. }
  subst llmMessages.
  destruct (announce prompt messages s) as [llmMessages s0].
  cbn [fst snd] in *. subst s0.
  rewrite (createWithRetry_ok _ tools prompt llmMessages _ _
             {| world := world s; trace := trace s ++ t0 |} message w HC).
  edestruct (display_ready message) as (t1 & -> & Ha1 & Hd1); [exact Hready|].
  exists (t0 ++ [Spun "Thinking..."; Asked prompt llmMessages] ++ t1).
  split_and!.
  - unfold asked in *. rewrite !omap_app, Ha0, Ha1. done.
  - unfold dispatched in *. rewrite !omap_app, Hd0, Hd1. done.
  - simpl. rewrite <- !app_assoc. simpl. by destruct (0 <? _)%nat.
Qed.

(** *** Strings *)




Lemma runPrompt_unfold fuel mcpClients tools prompt messages (s : State) :
  runPrompt (S fuel) mcpClients tools prompt messages s =
  match promptRound mcpClients tools prompt messages s with
  | None => None
  | Some (Failed err messages s) => Some (Some err, messages, s)
  | Some (Finished messages s) => Some (None, messages, s)
  | Some (Continue messages s) => runPrompt fuel mcpClients tools "" messages s
  end.
Proof. reflexivity. Qed.

#[local] Arguments promptRound : simpl never.

(** *** A tool call that fails *)



(** *** A tool call that succeeds *)








End OrchestratorFacts.

(** ** The theorems at concrete inputs *)

(** C9 at a transcript of three turns and the window 10. *)
Lemma pruneMessages_noop_witness :
  Z.of_nat (length Mock.exchange) <= 10 ∧ pruneMessages 10 Mock.exchange = Some Mock.exchange.
Proof.
  assert (Z.of_nat (length Mock.exchange) <= 10) as H by (simpl; lia).
  split; [exact H|]. exact (pruneMessages_noop 10 Mock.exchange H).
Defined.

(** C3 at the window 2, which cuts the invocation off its result. *)
Lemma pruneMessages_paired_witness :
  0 <= 2 < Z.of_nat (length Mock.exchange)
  ∧ ∃ P, pruneMessages 2 Mock.exchange = Some P ∧ paired P.
Proof.
  assert (0 <= 2 < Z.of_nat (length Mock.exchange)) as H by (simpl; lia).
  split; [exact H|]. exact (pruneMessages_paired 2 Mock.exchange H).
Defined.

(** C2 at the window 2: the tool turn loses its orphaned result and is
    dropped, the user turn stays. *)
Lemma pruneMessages_keeps_nonempty_turns_witness :
  0 <= 2 < Z.of_nat (length Mock.exchange)
  ∧ pruneMessages 2 Mock.exchange = Some [Mock.user "thanks"].
Proof.
  assert (0 <= 2 < Z.of_nat (length Mock.exchange)) as H by (simpl; lia).
  split; [exact H|].
  destruct (pruneMessages_keeps_nonempty_turns 2 Mock.exchange H) as [Hprune _].
  rewrite Hprune. vm_compute. reflexivity.
Defined.

(** C4 at a provider that is overloaded six times in a row. *)
Lemma backoff_policy_witness :
  overloadedFor (env := Mock.env) 6 [] "hi" []
    (Mock.world (replicate 6 Mock.overloaded)) = true
  ∧ ∃ s', createWithRetry (env := Mock.env) 6 [] "hi" [] initialBackoff 0
            (Mock.start (replicate 6 Mock.overloaded))
          = Some (Err overloadedMessage, s').
Proof.
  split; [reflexivity|].
  destruct (backoff_policy (env := Mock.env) [] "hi" []
              (Mock.start (replicate 6 Mock.overloaded)))
    as [_ (r & s' & t & Hrun & _ & _ & _ & _ & _ & _ & Hall)].
  exists s'. destruct (Hall eq_refl) as [<- _]. exact Hrun.
Defined.


(** C10 at a reply that has text and asks for a tool. *)
Lemma runPromptNonInteractive_text_reply_witness :
  runPromptNonInteractive (env := Mock.env) 1 Mock.mcpClients [] "hi" []
    (Mock.start [Ok (Mock.ask "it is sunny" "c1" "weather__forecast")])
  = Some ("it is sunny", None, [], @mkState Mock.env (Mock.world []) [Asked "hi" []]).
Proof.
  destruct (runPromptNonInteractive_text_reply (env := Mock.env) Mock.mcpClients []
              "hi" [] (Mock.start [Ok (Mock.ask "it is sunny" "c1" "weather__forecast")])
              (Mock.ask "it is sunny" "c1" "weather__forecast") (Mock.world []) 0 eq_refl)
    as [Hrun _]; [discriminate|].
  exact Hrun.
Defined.





(** C1, at the input where the code departs from it: on the prompt "hi" and
    the reply "hello", [runPromptNonInteractive] returns the reply and leaves
    the empty transcript empty, whereas [runPrompt] appends the user turn
    and the assistant turn. *)
Theorem non_interactive_appends_nothing :
  runPromptNonInteractive (env := Mock.env) 1 Mock.mcpClients [] "hi" []
    (Mock.start [Ok (Mock.say "hello")])
  = Some ("hello", None, [], @mkState Mock.env (Mock.world []) [Asked "hi" []])
  ∧ ∃ s', runPrompt (env := Mock.env) 1 Mock.mcpClients [] "hi" []
            (Mock.start [Ok (Mock.say "hello")])
          = Some (None, [Mock.user "hi"; Mock.assistant [textBlock "hello"]], s').
Proof. split; [reflexivity|]. eexists. vm_compute. reflexivity. Qed.

(** ** Further theorems on [pruneMessages] *)

Lemma length_omap_le {A B} (f : A → option B) (l : list A) :
  (length (omap f l) <= length l)%nat.
Proof. induction l as [|x l IH]; csimpl; [done|]. destruct (f x); csimpl; lia. Qed.

Lemma length_window messageWindow (T : list HistoryMessage) :
  0 <= messageWindow < Z.of_nat (length T) →
  Z.of_nat (length (window messageWindow T)) = messageWindow.
Proof.
  intros H. unfold window. rewrite length_drop.
  remember (length T) as n eqn:Hn. clear Hn. lia.
Qed.

(** At or below the window the transcript comes back as it is. *)
Lemma pruneMessages_below messageWindow (T : list HistoryMessage) :
  Z.of_nat (length T) <= messageWindow → pruneMessages messageWindow T = Some T.
Proof.
  intros H. unfold pruneMessages.
  by destruct (Z.leb_spec (Z.of_nat (length T)) messageWindow); [|lia].
Qed.

(** A negative window makes the slice expression panic. *)
Lemma pruneMessages_negative messageWindow (T : list HistoryMessage) :
  messageWindow < 0 → pruneMessages messageWindow T = None.
Proof.
  intros H. unfold pruneMessages.
  destruct (Z.leb_spec (Z.of_nat (length T)) messageWindow); [lia|].
  by destruct (Z.ltb_spec messageWindow 0); [|lia].
Qed.

Lemma pruneMessages_length messageWindow (T P : list HistoryMessage) :
  pruneMessages messageWindow T = Some P →
  (length P <= length T)%nat
  ∧ (messageWindow < Z.of_nat (length T) → Z.of_nat (length P) <= messageWindow).
Proof.
  intros HP.
  destruct (Z.le_gt_cases (Z.of_nat (length T)) messageWindow) as [Hle|Hgt].
  - rewrite pruneMessages_below in HP by done. injection HP as <-. split; [done|lia].
  - destruct (Z.lt_ge_cases messageWindow 0) as [Hneg|Hpos].
    + by rewrite pruneMessages_negative in HP.
    + rewrite pruneMessages_above in HP by lia. injection HP as <-.
      pose proof (length_omap_le
                    (keepTurn (collectIds (window messageWindow T)).1
                              (collectIds (window messageWindow T)).2)
                    (window messageWindow T)) as Hlen.
      pose proof (length_window messageWindow T ltac:(lia)) as Hwin.
      split; [|lia]. lia.
Qed.

(** X1: the pruned transcript has at most as many turns as the window
    allows, and never more than the transcript. *)
Theorem pruneMessages_bounded messageWindow (T P : list HistoryMessage) :
  pruneMessages messageWindow T = Some P →
  Z.of_nat (length P) <= messageWindow ∧ (length P <= length T)%nat.
Proof.
  intros HP. destruct (pruneMessages_length _ _ _ HP) as [Hle Hwin].
  split; [|done].
  destruct (Z.le_gt_cases (Z.of_nat (length T)) messageWindow); lia.
Qed.

(** X2: pruning is idempotent: pruning a pruned transcript with the same
    window returns it as it is. *)
Theorem pruneMessages_idempotent messageWindow (T P : list HistoryMessage) :
  pruneMessages messageWindow T = Some P →
  pruneMessages messageWindow P = Some P.
Proof.
  intros HP.
  destruct (Z.le_gt_cases (Z.of_nat (length T)) messageWindow) as [Hle|Hgt].
  - rewrite pruneMessages_below in HP by done. injection HP as <-.
    by apply pruneMessages_below.
  - destruct (pruneMessages_length _ _ _ HP) as [_ Hlen].
    apply pruneMessages_below. lia.
Qed.


Lemma keep_not_orphan ms b :
  keep (collectIds ms).1 (collectIds ms).2 b = true ↔ ¬ orphan ms b.
Proof.
  unfold keep, orphan.
  destruct (String.eqb_spec (Type_ b) "tool_use") as [Hu|Hu].
  - rewrite Hu. destruct (index _ _) eqn:Hi.
    + apply collectIds_result in Hi. split; [|done].
      intros _ [[_ Hno]|[? _]]; done.
    + split; [done|]. intros Hno. exfalso. apply Hno. left. split; [done|].
      intros Hex%collectIds_result. congruence.
  - destruct (String.eqb_spec (Type_ b) "tool_result") as [Hr|Hr].
    + destruct (index _ _) eqn:Hi.
      * apply collectIds_use in Hi. split; [|done].
        intros _ [[? _]|[_ Hno]]; done.
      * split; [done|]. intros Hno. exfalso. apply Hno. right. split; [done|].
        intros Hex%collectIds_use. congruence.
    + split; [|done]. intros _ [[? _]|[? _]]; done.
Qed.

(** X4: above the window, pruning drops the orphans of the window and
    nothing else: the segments left are the segments of the window that are
    no orphans there (all its text segments, and every invocation and result
    whose partner is in the window too). *)
Theorem pruneMessages_drops_only_orphans messageWindow (T : list HistoryMessage) :
  0 <= messageWindow < Z.of_nat (length T) →
  ∃ P, pruneMessages messageWindow T = Some P
       ∧ ∀ b, segment P b ↔
              segment (window messageWindow T) b
              ∧ ¬ orphan (window messageWindow T) b.
Proof.
  intros H. rewrite (pruneMessages_above _ _ H). eexists. split; [done|].
  intros b. by rewrite segment_keepTurn, keep_not_orphan.
Qed.

Lemma filter_sublist {A} (f : A → bool) (l : list A) :
  List.filter f l `sublist_of` l.
Proof.
  induction l as [|x l IH]; simpl; [done|].
  destruct (f x); [by apply sublist_skip|by apply sublist_cons].
Qed.

Lemma omap_keepTurn_shrunk u r ms :
  ∃ T', T' `sublist_of` ms ∧ Forall2 shrunk (omap (keepTurn u r) ms) T'.
Proof.
  induction ms as [|m ms (T' & Hsub & Hall)]; simpl.
  - exists []. by split.
  - unfold keepTurn at 1. destruct (prunedBlocks u r m) eqn:Hp.
    + exists T'. split; [by apply sublist_cons|done].
    + exists (m :: T'). split; [by apply sublist_skip|].
      constructor; [|done]. split; [done|]. apply filter_sublist.
Qed.

(** X5: pruning invents nothing and keeps the order: the turns of the
    result are, in order, some of the turns of the transcript, each with its
    role and with some of its segments, in their order. *)
Theorem pruneMessages_shrinks messageWindow (T P : list HistoryMessage) :
  pruneMessages messageWindow T = Some P →
  ∃ T', T' `sublist_of` T ∧ Forall2 shrunk P T'.
Proof.
  intros HP.
  destruct (Z.le_gt_cases (Z.of_nat (length T)) messageWindow) as [Hle|Hgt].
  - rewrite pruneMessages_below in HP by done. injection HP as <-.
    exists T. split; [done|]. apply Forall2_same_length_lookup_2; [done|].
    intros i m m' Hm Hm'. rewrite Hm in Hm'. injection Hm' as <-. by split.
  - destruct (Z.lt_ge_cases messageWindow 0) as [Hneg|Hpos].
    + by rewrite pruneMessages_negative in HP.
    + rewrite pruneMessages_above in HP by lia. injection HP as <-.
      destruct (omap_keepTurn_shrunk
                  (collectIds (window messageWindow T)).1
                  (collectIds (window messageWindow T)).2
                  (window messageWindow T)) as (T' & Hsub & Hall).
      exists T'. split; [|done]. etrans; [done|]. apply sublist_drop.
Qed.

(** ** Further theorems: the names of the tools *)

Lemma app_String c s t : String c s +:+ t = String c (s +:+ t).
Proof. reflexivity. Qed.

Lemma string_app_assoc' a b c : (a +:+ b) +:+ c = a +:+ (b +:+ c).
Proof. induction a as [|x a IH]; [done|]. by rewrite !app_String, IH. Qed.

Lemma string_app_nil_r' s : s +:+ "" = s.
Proof. induction s as [|c s IH]; [done|]. by rewrite app_String, IH. Qed.

Lemma strings_HasPrefix_nil s : strings_HasPrefix s "" = true.
Proof. by destruct s. Qed.

(** A piece without separator is not split. *)
Lemma split_go_plain s : ∀ cur,
  strings_Contains s "__" = false →
  split_go "__" 0 cur s = [cur +:+ s].
Proof.
  induction s as [|c s IH]; intros cur H.
  - simpl. by rewrite string_app_nil_r'.
  - cbn [strings_Contains] in H. apply orb_false_iff in H as [Hp Hc].
    cbn [split_go]. rewrite Hp, IH by done.
    by rewrite string_app_assoc'.
Qed.

(** The first separator of a qualified name is the one between the parts. *)
Lemma split_go_qualified serverName toolName : ∀ cur,
  strings_Contains serverName "__" = false →
  endsInUnderscore serverName = false →
  strings_Contains toolName "__" = false →
  split_go "__" 0 cur (qualified serverName toolName) = [cur +:+ serverName; toolName].
Proof.
  unfold qualified.
  induction serverName as [|c s IH]; intros cur Hs He Ht.
  - rewrite string_app_nil_r'.
    change ("" +:+ "__" +:+ toolName) with (String underscore (String underscore toolName)).
    cbn [split_go strings_HasPrefix Ascii.eqb underscore Bool.eqb String.length Nat.pred].
    by rewrite strings_HasPrefix_nil, split_go_plain.
  - cbn [strings_Contains] in Hs. apply orb_false_iff in Hs as [Hp Hc].
    rewrite app_String. cbn [split_go].
    assert (strings_HasPrefix (String c (s +:+ "__" +:+ toolName)) "__" = false) as ->.
    { destruct s as [|d s].
      - simpl in He. unfold underscore in He. simpl. by rewrite He.
      - rewrite app_String. simpl in Hp. simpl.
        rewrite strings_HasPrefix_nil in *.
        destruct (Ascii.eqb c _); [|done]. by destruct (Ascii.eqb d _). }
    rewrite IH; [by rewrite string_app_assoc'|done| |done].
    destruct s; [done|]. done.
Qed.

(** ** Further theorems on the orchestrator *)

Section OrchestratorInvariants.
Context {env : Environment}.

Ltac read_trace :=
  unfold dispatched, printed, delays, asked, emit, setWorld; simpl;
  rewrite ?omap_app; simpl; rewrite ?app_nil_r, <- ?app_assoc; simpl.

(** X6: a name made of a server name and a tool name around the separator
    is taken apart into these two, provided neither contains the separator and
    the server name does not end in an underscore; the call then goes to
    that server, under that tool name, in both entry points. *)
Theorem qualified_name_routes mcpClients message (acc : Loop) toolCall
    serverName toolName (mcpClient : MCPClient) toolArgs r w :
  GetName toolCall = qualified serverName toolName →
  strings_Contains serverName "__" = false →
  endsInUnderscore serverName = false →
  strings_Contains toolName "__" = false →
  mcpClients !! serverName = Some mcpClient →
  json_Unmarshal (json_Marshal (GetArguments toolCall)) = Ok toolArgs →
  mcpClient toolName toolArgs (world (st acc)) = (r, w) →
  strings_Split (GetName toolCall) "__" = [serverName; toolName]
  ∧ (let next := toolCallStep mcpClients message acc toolCall in
     dispatched (trace (st next))
     = dispatched (trace (st acc)) ++ [(serverName, toolName, toolArgs)]
     ∧ world (st next) = w)
  ∧ (let next := serverToolCallStep mcpClients message acc toolCall in
     dispatched (trace (st next))
     = dispatched (trace (st acc)) ++ [(serverName, toolName, toolArgs)]
     ∧ world (st next) = w).
Proof.
  intros Hname Hs He Ht Hclient Hargs Hcall.
  assert (strings_Split (GetName toolCall) "__" = [serverName; toolName]) as Hsplit.
  { rewrite Hname. unfold strings_Split. by rewrite split_go_qualified. }
  split; [done|].
  unfold toolCallStep, serverToolCallStep, recordResult, logUsage, MCPClient in *.
  rewrite Hsplit. cbv beta iota zeta. rewrite Hclient, Hargs.
  destruct (GetUsage message) as [i o].
  destruct ((i >? 0) || (o >? 0)); simpl; rewrite Hcall;
    destruct r as [[[items|]]|err]; simpl; split_and!; try done; by read_trace.
Qed.

(** *** The loops over the tool calls *)

Lemma toolCallStep_answering mcpClients message :
  answering (toolCallStep mcpClients message).
Proof.
  intros w toolCall. unfold toolCallStep, recordResult, logUsage.
  destruct (GetUsage message) as [i o].
  destruct ((i >? 0) || (o >? 0)); simpl; repeat case_match; simplify_eq/=;
    (split; [done|]); (split; [first [by left | right; by eexists]|done]).
Qed.

Lemma serverToolCallStep_answering mcpClients message :
  answering (serverToolCallStep mcpClients message).
Proof.
  intros w toolCall. unfold serverToolCallStep, recordResult, logUsage.
  destruct (GetUsage message) as [i o].
  destruct ((i >? 0) || (o >? 0)); simpl; repeat case_match; simplify_eq/=;
    (split; [done|]); (split; [first [by left | right; by eexists]|done]).
Qed.

(** What a whole loop does to its variables. *)
Lemma fold_answering step toolCalls :
  framed step → answering step →
  ∀ acc,
    let final := fold_left step toolCalls acc in
    ∃ results t,
      messageContent final = messageContent acc ++ map invocation toolCalls
      ∧ toolResults final = toolResults acc ++ results
      ∧ trace (st final) = trace (st acc) ++ t
      ∧ asked t = []
      ∧ Forall (λ b, Type_ b = "tool_result") results
      ∧ (ToolUseID <$> results) `sublist_of` (GetID <$> toolCalls).
Proof.
  intros Hframed Hstep.
  induction toolCalls as [|toolCall toolCalls IH]; intros acc; simpl.
  - exists [], []. rewrite !app_nil_r. by split_and!.
  - destruct (IH (step acc toolCall)) as (rs & t & Hc & Hr & Ht & Ha & Hf & Hs).
    rewrite Hc, Hr, Ht, (Hframed acc toolCall). unfold extend. simpl.
    destruct (Hstep (world (st acc)) toolCall) as (Hc1 & Hr1 & Ha1).
    rewrite Hc1.
    exists (toolResults (step (blank (world (st acc))) toolCall) ++ rs),
           (trace (st (step (blank (world (st acc))) toolCall)) ++ t).
    rewrite <- !app_assoc. split_and!; try done.
    + unfold asked in *. by rewrite omap_app, Ha1, Ha.
    + destruct Hr1 as [->|(b & -> & Hb & _)]; [done|]. by constructor.
    + destruct Hr1 as [->|(b & -> & _ & Hid)]; simpl.
      * by apply sublist_cons.
      * rewrite Hid. by apply sublist_skip.
Qed.

(** *** One activation *)

Lemma announce_grows prompt messages (s : State) :
  ∃ added t,
    announce prompt messages s
    = (messages ++ added, {| world := world s; trace := trace s ++ t |})
    ∧ asked t = []
    ∧ (added = [] ∨ added = [{| Role := "user"; Content := [textBlock prompt] |}]).
Proof.
  unfold announce. destruct (String.eqb prompt "").
  - exists [], []. rewrite !app_nil_r. destruct s. split_and!; try done. by left.
  - eexists _, [_]. split_and!; try done. by right.
Qed.

Lemma createWithRetry_trace tools p m : ∀ fuel b k (s : State) r s',
  createWithRetry fuel tools p m b k s = Some (r, s') →
  ∃ t rest, trace s' = trace s ++ t ∧ asked t = (p, m) :: rest.
Proof.
  induction fuel as [|fuel IH]; intros b k s r s' Hrun; [done|].
  simpl in Hrun.
  destruct (CreateMessage p m tools (world s)) as [[msg|err] w].
  - injection Hrun as <- <-. eexists [_; _], []. simpl. by rewrite <- app_assoc.
  - destruct (strings_Contains err "overloaded_error").
    + destruct (k >=? maxRetries).
      * injection Hrun as <- <-. eexists [_; _], []. simpl. by rewrite <- app_assoc.
      * apply IH in Hrun as (t & rest & -> & Ha).
        eexists (_ :: _ :: _ :: _ :: t), _. simpl. rewrite <- !app_assoc. simpl.
        split; [done|]. by rewrite Ha.
    + injection Hrun as <- <-. eexists [_; _], []. simpl. by rewrite <- app_assoc.
Qed.

Lemma display_trace message (s : State) o s' :
  display message s = (o, s') → ∃ t, trace s' = trace s ++ t ∧ asked t = [].
Proof.
  unfold display. intros H.
  assert (∃ t0,
            match renderer_Render (world s) (nl +:+ "Assistant: ") with
            | Ok str =>
                if String.eqb (GetContent message) "" then s else emit (Printed str) s
            | Err _ => s
            end = {| world := world s; trace := trace s ++ t0 |}
            ∧ asked t0 = []) as (t0 & Hs0 & Ha0).
  { destruct (renderer_Render _ _); [destruct (String.eqb _ _)|];
      first [by exists []; rewrite state_eta | by eexists [_]]. }
  rewrite Hs0 in H. clear Hs0.
  destruct (String.eqb (GetContent message) "").
  - injection H as <- <-. by exists t0.
  - simpl in H. destruct (updateRenderer (world s)) as [[err|] w].
    + injection H as <- <-. by exists t0.
    + destruct (renderer_Render w _); injection H as <- <-; simpl;
        rewrite <- ?app_assoc; (eexists; split; [done|]);
        unfold asked in *; by rewrite omap_app, Ha0.
Qed.

(** How an activation of [runPrompt] can end. *)
Lemma promptRound_cases mcpClients tools prompt messages (s : State) r :
  promptRound mcpClients tools prompt messages s = Some r →
  let llmMessages := (announce prompt messages s).1 in
  (∃ t rest, trace (roundState r) = trace s ++ t
             ∧ asked t = (prompt, llmMessages) :: rest)
  ∧ ((∃ err s', r = Failed err llmMessages s')
     ∨ ∃ reply results s',
         Forall (λ b, Type_ b = "tool_result") results
         ∧ (ToolUseID <$> results) `sublist_of` (GetID <$> GetToolCalls reply)
         ∧ (r = Finished (llmMessages ++ [assistantTurn reply]) s' ∧ results = []
            ∨ r = Continue (llmMessages ++ [assistantTurn reply] ++ toolTurns results) s'
              ∧ results ≠ [])).
Proof.
  unfold promptRound. intros Hround.
  destruct (announce_grows prompt messages s) as (added & t0 & Han & Ha0 & _).
  rewrite Han in *. cbn [fst].
  destruct (createWithRetry _ _ _ _ _ _ _) as [[[reply|err] s1]|] eqn:Hretry; [| |done].
  - apply createWithRetry_trace in Hretry as (t1 & rest & Ht1 & Ha1). simpl in Ht1.
    destruct (display reply s1) as [[err|] s2] eqn:Hdisplay.
    + apply display_trace in Hdisplay as (t2 & Ht2 & Ha2).
      injection Hround as <-. split; [|left; by eexists _, _].
      exists (t0 ++ t1 ++ t2), rest. simpl. rewrite Ht2, Ht1, <- !app_assoc.
      split; [done|]. unfold asked in *. by rewrite !omap_app, Ha0, Ha1, Ha2, app_nil_r.
    + apply display_trace in Hdisplay as (t2 & Ht2 & Ha2).
      unfold toolLoop in Hround.
      destruct (fold_answering _ (GetToolCalls reply)
                  (toolCallStep_framed mcpClients reply)
                  (toolCallStep_answering mcpClients reply)
                  {| messageContent := textContent reply; toolResults := []; st := s2 |})
        as (results & t3 & Hc & Hr & Ht3 & Ha3 & Hf & Hs).
      simpl in Hc, Hr, Ht3. rewrite Hc, Hr in Hround.
      assert (asked (t0 ++ t1 ++ t2 ++ t3) = (prompt, messages ++ added) :: rest) as Hasked.
      { unfold asked in *. by rewrite !omap_app, Ha0, Ha1, Ha2, Ha3, !app_nil_r. }
      destruct results as [|b results]; simpl in Hround; injection Hround as <-.
      * split.
        { exists ((t0 ++ t1 ++ t2 ++ t3) ++ [Printed nl]), rest. simpl.
          rewrite Ht3, Ht2, Ht1. split; [by rewrite <- !app_assoc|].
          unfold asked in *. rewrite omap_app, Hasked. simpl. by rewrite app_nil_r. }
        right. eexists reply, [], _. split_and!; try done. left. by split.
      * split.
        { exists (t0 ++ t1 ++ t2 ++ t3), rest. simpl.
          rewrite Ht3, Ht2, Ht1, <- !app_assoc. by split. }
        right. eexists reply, (b :: results), _. split_and!; try done.
        right. split; [|done]. unfold assistantTurn. by rewrite <- app_assoc.
  - apply createWithRetry_trace in Hretry as (t1 & rest & Ht1 & Ha1). simpl in Ht1.
    injection Hround as <-. split; [|left; by eexists _, _].
    exists (t0 ++ t1), rest. simpl. rewrite Ht1, <- !app_assoc.
    split; [done|]. unfold asked in *. by rewrite !omap_app, Ha0, Ha1.
Qed.

(** How an activation of [runPromptNonInteractive] can end. *)
Lemma serverRound_cases mcpClients tools prompt messages (s : State) :
  let r := serverRound mcpClients tools prompt messages s in
  (∃ err s', r = ServerFailed err messages s')
  ∨ (∃ text s', text ≠ "" ∧ r = Replied text messages s')
  ∨ ∃ reply results s',
      GetContent reply = ""
      ∧ Forall (λ b, Type_ b = "tool_result") results
      ∧ (ToolUseID <$> results) `sublist_of` (GetID <$> GetToolCalls reply)
      ∧ (r = Silent (messages ++ [assistantTurn reply]) s' ∧ results = []
         ∨ r = Again (messages ++ [assistantTurn reply] ++ toolTurns results) s'
           ∧ results ≠ []).
Proof.
  unfold serverRound. simpl.
  destruct (CreateMessage prompt messages tools (world s)) as [[reply|err] w];
    [|left; by eexists _, _].
  destruct (String.eqb_spec (GetContent reply) "") as [Hempty|Htext]; simpl;
    [|right; left; by eexists _, _].
  right. right. unfold serverToolLoop.
  destruct (fold_answering _ (GetToolCalls reply)
              (serverToolCallStep_framed mcpClients reply)
              (serverToolCallStep_answering mcpClients reply)
              {| messageContent := []; toolResults := [];
                 st := setWorld w (emit (Asked prompt messages) s) |})
    as (results & t & Hc & Hr & _ & _ & Hf & Hs).
  simpl in Hc, Hr. unfold setWorld, emit in *. simpl in *. rewrite Hc, Hr.
  assert (assistantTurn reply
          = {| Role := GetRole reply; Content := map invocation (GetToolCalls reply) |})
    as <-.
  { unfold assistantTurn, textContent. by rewrite Hempty. }
  destruct results as [|b results]; simpl; eexists reply, _, _;
    (split_and!; [done|exact Hf|exact Hs|]).
  - left. by split.
  - right. split; [|done]. by rewrite <- app_assoc.
Qed.

Lemma runPrompt_grows fuel mcpClients tools : ∀ prompt messages (s : State)
    e messages' s',
  runPrompt fuel mcpClients tools prompt messages s = Some (e, messages', s') →
  messages `prefix_of` messages' ∧ trace s `prefix_of` trace s'.
Proof.
  induction fuel as [|fuel IH]; intros prompt messages s e messages' s' Hrun; [done|].
  rewrite runPrompt_unfold in Hrun.
  destruct (promptRound mcpClients tools prompt messages s) as [r|] eqn:Hround; [|done].
  destruct (promptRound_cases _ _ _ _ _ _ Hround)
    as [(t & rest & Ht & _) Hcases].
  destruct (announce_grows prompt messages s) as (added & t0 & Han & _ & _).
  rewrite Han in Hcases. cbn [fst] in Hcases.
  destruct Hcases as [(err & s1 & ->)|(reply & results & s1 & _ & _ & [[-> _]|[-> _]])];
    simpl in Ht; simplify_eq.
  - split; [by eexists|]. rewrite Ht. by eexists.
  - split; [rewrite <- app_assoc; by eexists|]. rewrite Ht. by eexists.
  - apply IH in Hrun as [Hm Htr]. split.
    + etrans; [|exact Hm]. rewrite <- app_assoc. by eexists.
    + etrans; [|exact Htr]. rewrite Ht. by eexists.
Qed.


(** X9: a reply without invocations ends the turn: [runPrompt] has asked
    the provider once and no tool server, has appended the assistant turn
    with the text of the reply (a turn without segments when the reply has no
    text either), and returns [nil]. *)
Theorem runPrompt_ends_without_invocations mcpClients tools prompt messages
    (s : State) reply w fuel :
  let llmMessages := (announce prompt messages s).1 in
  CreateMessage prompt llmMessages tools (world s) = (Ok reply, w) →
  rendererReady reply w →
  GetToolCalls reply = [] →
  ∃ s' t,
    runPrompt (S fuel) mcpClients tools prompt messages s
    = Some (None,
            llmMessages ++ [{| Role := GetRole reply; Content := textContent reply |}],
            s')
    ∧ trace s' = trace s ++ t
    ∧ asked t = [(prompt, llmMessages)]
    ∧ dispatched t = [].
Proof.
  intros llmMessages HC Hready Hcalls.
  destruct (promptRound_reply mcpClients tools prompt messages s reply w HC Hready)
    as (t & Ha & Hd & Hround).
  cbv zeta in Hround. rewrite Hcalls in Hround. simpl in Hround.
  eexists _, (t ++ [Printed nl]). split_and!.
  - rewrite runPrompt_unfold. fold llmMessages in Hround. by rewrite Hround.
  - simpl. by rewrite <- app_assoc.
  - unfold asked in *. by rewrite omap_app, Ha.
  - unfold dispatched in *. by rewrite omap_app, Hd.
Qed.

(** *** The pairing of results with invocations *)

(** A turn may be appended when each of its results answers an invocation of
    the transcript. *)
Lemma answered_snoc (T : list HistoryMessage) m :
  answered T →
  (∀ b, b ∈ Content m → Type_ b = "tool_result" →
        ∃ j m' b', T !! j = Some m' ∧ b' ∈ Content m'
                   ∧ Type_ b' = "tool_use" ∧ ID b' = ToolUseID b) →
  answered (T ++ [m]).
Proof.
  intros HT Hm i m0 b Hi Hb Hres.
  apply lookup_app_Some in Hi as [Hi|[Hlen Hi]].
  - destruct (HT i m0 b Hi Hb Hres) as (j & m' & b' & Hj & Hm' & H').
    exists j, m', b'. split; [done|]. split; [|done].
    rewrite lookup_app_l; [done|]. apply lookup_lt_Some in Hi. lia.
  - destruct (i - length T)%nat as [|n] eqn:Hn; [|done]. simpl in Hi.
    injection Hi as <-.
    destruct (Hm b Hb Hres) as (j & m' & b' & Hj & H').
    exists j, m', b'. pose proof (lookup_lt_Some _ _ _ Hj).
    split; [lia|]. split; [|done]. by rewrite lookup_app_l.
Qed.

(** The turns of a reply and of its results may be appended. *)
Lemma answered_reply (T : list HistoryMessage) reply results :
  answered T →
  Forall (λ b, Type_ b = "tool_result") results →
  (ToolUseID <$> results) `sublist_of` (GetID <$> GetToolCalls reply) →
  answered (T ++ [assistantTurn reply] ++ toolTurns results).
Proof.
  intros HT _ Hsub.
  assert (answered (T ++ [assistantTurn reply])) as Ha.
  { apply answered_snoc; [done|]. intros b Hb Hres. exfalso.
    unfold assistantTurn, textContent in Hb. simpl in Hb.
    apply elem_of_app in Hb as [Hb|Hb].
    - destruct (String.eqb _ _); [by apply elem_of_nil in Hb|].
      apply list_elem_of_singleton in Hb as ->. discriminate.
    - apply list_elem_of_fmap in Hb as (tc & -> & _). discriminate. }
  rewrite app_assoc.
  apply sublist_subseteq in Hsub. revert Hsub.
  induction results as [|r results IH] using rev_ind; intros Hsub.
  - simpl. by rewrite app_nil_r.
  - unfold toolTurns in *. rewrite map_app, app_assoc. simpl.
    rewrite fmap_app in Hsub.
    apply answered_snoc.
    + apply IH. intros x Hx. apply Hsub. apply elem_of_app. by left.
    + intros b Hb _. simpl in Hb. apply list_elem_of_singleton in Hb as ->.
      assert (ToolUseID r ∈ GetID <$> GetToolCalls reply) as Hin.
      { apply Hsub. apply elem_of_app. right. simpl. left. }
      apply list_elem_of_fmap in Hin as (tc & Hid & Htc).
      exists (length T), (assistantTurn reply), (invocation tc).
      split_and!; try done.
      * rewrite <- app_assoc. apply list_lookup_middle. done.
      * unfold assistantTurn. simpl. apply elem_of_app. right.
        by apply list_elem_of_fmap_2.
Qed.

Lemma answered_user (T : list HistoryMessage) prompt (s : State) :
  answered T → answered (announce prompt T s).1.
Proof.
  intros HT. unfold announce. destruct (String.eqb prompt ""); [done|].
  simpl. apply answered_snoc; [done|]. intros b Hb Hres.
  simpl in Hb. apply list_elem_of_singleton in Hb as ->. discriminate.
Qed.

(** X8: the pairing of the transcript is kept by both entry points: when
    every result segment of the transcript given answers an invocation of an
    earlier turn, the same holds of the transcript left behind the pointer. *)
Theorem results_stay_answered mcpClients tools messages :
  answered messages →
  (∀ fuel prompt (s : State) e messages' s',
     runPrompt fuel mcpClients tools prompt messages s = Some (e, messages', s') →
     answered messages')
  ∧ (∀ fuel prompt (s : State) text e messages' s',
       runPromptNonInteractive fuel mcpClients tools prompt messages s
       = Some (text, e, messages', s') →
       answered messages').
Proof.
  intros HT. split.
  - intros fuel. revert messages HT.
    induction fuel as [|fuel IH]; intros messages HT prompt s e messages' s' Hrun;
      [done|].
    rewrite runPrompt_unfold in Hrun.
    destruct (promptRound mcpClients tools prompt messages s) as [r|] eqn:Hround;
      [|done].
    destruct (promptRound_cases _ _ _ _ _ _ Hround) as [_ Hcases].
    pose proof (answered_user messages prompt s HT) as Hllm.
    destruct Hcases
      as [(err & s1 & ->)|(reply & results & s1 & Hf & Hs & [[-> ->]|[-> _]])];
      simplify_eq.
    + done.
    + apply (answered_reply _ reply [] Hllm); [done|]. apply sublist_nil_l.
    + eapply IH; [|exact Hrun]. by apply answered_reply.
  - intros fuel. revert messages HT.
    induction fuel as [|fuel IH];
      intros messages HT prompt s text e messages' s' Hrun; [done|].
    simpl in Hrun.
    destruct (serverRound_cases mcpClients tools prompt messages s)
      as [(err & s1 & Hr)|[(reply & s1 & _ & Hr)
          |(reply & results & s1 & _ & Hf & Hs & [[Hr ->]|[Hr _]])]];
      rewrite Hr in Hrun; simplify_eq.
    + done.
    + done.
    + apply (answered_reply _ reply [] HT); [done|]. apply sublist_nil_l.
    + eapply IH; [|exact Hrun]. by apply answered_reply.
Qed.

(** X10: [runPromptNonInteractive] appends invocation and result segments
    only: no text segment, of the user or of the provider, ever reaches the
    transcript behind the pointer. *)
Theorem runPromptNonInteractive_appends_no_text mcpClients tools :
  ∀ fuel prompt messages (s : State) text e messages' s',
    runPromptNonInteractive fuel mcpClients tools prompt messages s
    = Some (text, e, messages', s') →
    ∃ added,
      messages' = messages ++ added
      ∧ ∀ m b, m ∈ added → b ∈ Content m →
               Type_ b = "tool_use" ∨ Type_ b = "tool_result".
Proof.
  induction fuel as [|fuel IH];
    intros prompt messages s text e messages' s' Hrun; [done|].
  simpl in Hrun.
  assert (∀ reply results,
            GetContent reply = "" →
            Forall (λ b, Type_ b = "tool_result") results →
            ∀ m b, m ∈ [assistantTurn reply] ++ toolTurns results → b ∈ Content m →
                   Type_ b = "tool_use" ∨ Type_ b = "tool_result") as Hturns.
  { intros reply results Hempty Hf m b Hm Hb.
    apply elem_of_app in Hm as [Hm|Hm].
    - apply list_elem_of_singleton in Hm as ->. left.
      unfold assistantTurn, textContent in Hb. rewrite Hempty in Hb. simpl in Hb.
      by apply list_elem_of_fmap in Hb as (tc & -> & _).
    - right. unfold toolTurns in Hm.
      apply list_elem_of_fmap in Hm as (r & -> & Hr). simpl in Hb.
      apply list_elem_of_singleton in Hb as ->.
      by eapply Forall_forall in Hf. }
  destruct (serverRound_cases mcpClients tools prompt messages s)
    as [(err & s1 & Hr)|[(reply & s1 & _ & Hr)
        |(reply & results & s1 & Hempty & Hf & _ & [[Hr ->]|[Hr _]])]];
    rewrite Hr in Hrun; simplify_eq.
  - exists []. rewrite app_nil_r. split; [done|]. intros m b Hm. by apply elem_of_nil in Hm.
  - exists []. rewrite app_nil_r. split; [done|]. intros m b Hm. by apply elem_of_nil in Hm.
  - exists ([assistantTurn reply] ++ toolTurns []). split; [done|]. by apply Hturns.
  - apply IH in Hrun as (added & -> & Hadded).
    exists (([assistantTurn reply] ++ toolTurns results) ++ added).
    split; [by rewrite <- !app_assoc|].
    intros m b [Hm|Hm]%elem_of_app Hb; [by eapply Hturns|by eapply Hadded].
Qed.

(** *** The first question of a turn *)

Lemma runPrompt_first_question fuel mcpClients tools prompt messages (s : State)
    e messages' s' :
  runPrompt fuel mcpClients tools prompt messages s = Some (e, messages', s') →
  ∃ t rest, trace s' = trace s ++ t
            ∧ asked t = (prompt, (announce prompt messages s).1) :: rest.
Proof.
  destruct fuel as [|fuel]; [done|]. rewrite runPrompt_unfold. intros Hrun.
  destruct (promptRound mcpClients tools prompt messages s) as [r|] eqn:Hround; [|done].
  destruct (promptRound_cases _ _ _ _ _ _ Hround) as [(t & rest & Ht & Ha) _].
  destruct r as [err ms s1|ms s1|ms s1]; simpl in Ht; simplify_eq.
  - by exists t, rest.
  - by exists t, rest.
  - apply runPrompt_grows in Hrun as [_ [t2 Ht2]].
    exists (t ++ t2), (rest ++ asked t2). rewrite Ht2, Ht, <- app_assoc.
    split; [done|]. unfold asked in *. by rewrite omap_app, Ha.
Qed.

End OrchestratorInvariants.

(** ** Theorems on the front ends *)

Section FrontEndFacts.
Context {env : Environment}.

(** X11: when the server answers a request with a text that is not empty,
    the status is 200 and the transcript it keeps for the next request has at
    most as many turns as the window allows. *)
Theorem chatHandler_keeps_window decodeRequest messageWindow fuel mcpClients tools
    body messages (s : State) status response messages' s' :
  chatHandler decodeRequest messageWindow fuel mcpClients tools body messages s
  = Some (Written status (Some response) messages' s') →
  Message_ response ≠ "" →
  status = 200 ∧ Z.of_nat (length messages') <= messageWindow.
Proof.
  unfold chatHandler. intros Hserved Htext.
  destruct (decodeRequest body) as [request|?]; [|done].
  destruct (runPromptNonInteractive _ _ _ _ _ _) as [[[[text [err|]] ms] s1]|];
    try done.
  destruct text as [|c text]; simpl in Hserved; [by simplify_eq|].
  destruct (pruneMessages messageWindow ms) as [P|] eqn:HP; [|done].
  injection Hserved as <- <- <- <-. split; [done|].
  destruct (pruneMessages_length _ _ _ HP) as [Hle Hwin].
  destruct (Z.le_gt_cases (Z.of_nat (length ms)) messageWindow); lia.
Qed.

(** X12: in a round of the interactive loop the provider is asked, if at
    all, first with the prompt entered and with a transcript of at most
    [messageWindow + 1] turns: the pruned transcript and the new user turn. *)
Theorem hostIteration_first_question handleSlashCommand messageWindow fuel
    mcpClients tools form messages (s : State) step :
  0 <= messageWindow →
  hostIteration handleSlashCommand messageWindow fuel mcpClients tools form messages s
  = Some step →
  ∃ t, trace (hostState step) = trace s ++ t
       ∧ (asked t = []
          ∨ ∃ prompt llmMessages rest,
              form = Entered prompt
              ∧ asked t = (prompt, llmMessages) :: rest
              ∧ Z.of_nat (length llmMessages) <= messageWindow + 1).
Proof.
  intros HW Hstep. unfold hostIteration in Hstep.
  destruct form as [|err|prompt]; simplify_eq.
  - eexists [_]. split; [done|]. by left.
  - exists []. rewrite app_nil_r. split; [done|]. by left.
  - destruct (String.eqb prompt ""); simplify_eq.
    { exists []. rewrite app_nil_r. split; [done|]. by left. }
    destruct (handleSlashCommand prompt messages (world s)) as [[handled [err|]] w];
      simplify_eq.
    { exists []. rewrite app_nil_r. split; [done|]. by left. }
    destruct handled; simplify_eq.
    { exists []. rewrite app_nil_r. split; [done|]. by left. }
    assert (∀ P, (if (0 <? length messages)%nat
                  then pruneMessages messageWindow messages
                  else Some messages) = Some P →
                 Z.of_nat (length P) <= messageWindow) as Hbound.
    { intros P HP. destruct messages as [|m messages]; simpl in HP.
      - injection HP as <-. simpl. lia.
      - destruct (pruneMessages_length _ _ _ HP) as [Hle Hwin].
        destruct (Z.le_gt_cases (Z.of_nat (length (m :: messages))) messageWindow); lia. }
    destruct (if (0 <? length messages)%nat then _ else _) as [P|]; simplify_eq.
    + specialize (Hbound P eq_refl).
      destruct (runPrompt fuel mcpClients tools prompt P (setWorld w s))
        as [[[e ms] s1]|] eqn:Hrun; [|done].
      destruct (runPrompt_first_question _ _ _ _ _ _ _ _ _ Hrun)
        as (t & rest & Ht & Ha).
      exists t. split; [by destruct e; simplify_eq|].
      right. exists prompt, (announce prompt P (setWorld w s)).1, rest.
      split_and!; try done.
      destruct (announce_grows prompt P (setWorld w s)) as (added & t0 & -> & _ & Hadd).
      cbn [fst]. rewrite length_app. destruct Hadd as [->| ->]; simpl; lia.
    + exists []. rewrite app_nil_r. split; [done|]. by left.
Qed.

End FrontEndFacts.

(** ** Theorems on [createProvider] *)

Lemma splitN_go_plain s : ∀ cur,
  strings_Contains s ":" = false → splitN_go ":" 2 0 cur s = [cur +:+ s].
Proof.
  induction s as [|c s IH]; intros cur H.
  - simpl. by rewrite string_app_nil_r'.
  - cbn [strings_Contains] in H. apply orb_false_iff in H as [Hp Hc].
    cbn [splitN_go]. rewrite Hp, IH by done. by rewrite string_app_assoc'.
Qed.

Lemma splitN_go_rest s cur : splitN_go ":" 1 0 cur s = [cur +:+ s].
Proof. destruct s; simpl; [by rewrite string_app_nil_r'|done]. Qed.

(** The first colon ends the provider; the model is all the rest. *)
Lemma splitN_go_first provider model : ∀ cur,
  strings_Contains provider ":" = false →
  splitN_go ":" 2 0 cur (provider +:+ ":" +:+ model) = [cur +:+ provider; model].
Proof.
  induction provider as [|c p IH]; intros cur H.
  - rewrite string_app_nil_r'.
    change ("" +:+ ":" +:+ model) with (String colon model).
    cbn [splitN_go strings_HasPrefix]. rewrite Ascii.eqb_refl, strings_HasPrefix_nil.
    simpl. by rewrite splitN_go_rest.
  - cbn [strings_Contains] in H. apply orb_false_iff in H as [Hp Hc].
    rewrite app_String. cbn [splitN_go].
    assert (strings_HasPrefix (String c (p +:+ ":" +:+ model)) ":" = false) as ->.
    { simpl in *. rewrite strings_HasPrefix_nil in *. by destruct (Ascii.eqb c _). }
    rewrite IH by done. by rewrite string_app_assoc'.
Qed.

(** Two pieces, when there are two, make up the string again. *)
Lemma splitN_go_join s : ∀ cur a b l,
  splitN_go ":" 2 0 cur s = a :: b :: l →
  cur +:+ s = a +:+ ":" +:+ b ∧ l = [] ∧ strings_Contains s ":" = true.
Proof.
  induction s as [|c s IH]; intros cur a b l H; [done|].
  cbn [splitN_go] in H. cbn [strings_Contains].
  destruct (strings_HasPrefix (String c s) ":") eqn:Hp.
  - rewrite splitN_go_rest in H. simpl in H. injection H as <- <- <-.
    split; [|done]. simpl in Hp.
    destruct (Ascii.eqb_spec c colon) as [->|]; [done|].
    unfold colon in *. by destruct (Ascii.eqb c _) eqn:Hc; [apply Ascii.eqb_eq in Hc|].
  - apply IH in H as (Heq & -> & Hc). rewrite Hc. split; [|done].
    by rewrite <- Heq, string_app_assoc'.
Qed.

Lemma strings_SplitN_join modelString a b l :
  strings_SplitN modelString ":" 2 = a :: b :: l →
  modelString = a +:+ ":" +:+ b.
Proof. intros H. by apply splitN_go_join in H as [? _]. Qed.

(** X13: when [createProvider] succeeds, the model string is the name of
    the provider chosen, a colon, and the model handed to the constructor:
    the provider is what stands before the first colon, and nothing of the
    rest is lost, further colons included. *)
Theorem createProvider_reads_model flags environ modelString systemPrompt c :
  createProvider flags environ modelString systemPrompt = Ok c →
  modelString = providerName c +:+ ":" +:+ modelName c.
Proof.
  unfold createProvider. intros H.
  destruct (strings_SplitN modelString ":" 2) as [|a [|b l]] eqn:Hsplit; try done.
  apply strings_SplitN_join in Hsplit as ->.
  destruct (String.eqb_spec a "anthropic") as [->|];
    [by repeat case_match; simplify_eq|].
  destruct (String.eqb_spec a "ollama") as [->|]; [by simplify_eq|].
  destruct (String.eqb_spec a "openai") as [->|];
    [by repeat case_match; simplify_eq|].
  destruct (String.eqb_spec a "google") as [->|]; [by simplify_eq|].
  done.
Qed.

(** X14: [createProvider] refuses a model string without colon, and it
    refuses a provider that is none of the four, naming it, whatever follows
    the colon. *)
Theorem createProvider_rejects flags environ systemPrompt :
  (∀ modelString,
     strings_Contains modelString ":" = false →
     createProvider flags environ modelString systemPrompt
     = Err ("invalid model format. Expected provider:model, got " +:+ modelString))
  ∧ (∀ provider model,
       strings_Contains provider ":" = false →
       provider ∉ ["anthropic"; "ollama"; "openai"; "google"] →
       createProvider flags environ (provider +:+ ":" +:+ model) systemPrompt
       = Err ("unsupported provider: " +:+ provider)).
Proof.
  split.
  - intros modelString H. unfold createProvider, strings_SplitN.
    by rewrite splitN_go_plain.
  - intros provider model H Hnot. unfold createProvider, strings_SplitN.
    rewrite splitN_go_first by done.
    change ("" +:+ provider) with provider.
    destruct (String.eqb_spec provider "anthropic") as [->|]; [set_solver|].
    destruct (String.eqb_spec provider "ollama") as [->|]; [set_solver|].
    destruct (String.eqb_spec provider "openai") as [->|]; [set_solver|].
    destruct (String.eqb_spec provider "google") as [->|]; [set_solver|].
    done.
Qed.

(** X15: the key handed to a constructor is the flag when the flag is set
    and the environment variable of the provider otherwise, for [google]
    the variable GEMINI_API_KEY when GOOGLE_API_KEY is empty too; [anthropic]
    and [openai] are never constructed with an empty key. *)
Theorem createProvider_resolves_key flags environ modelString systemPrompt c key :
  createProvider flags environ modelString systemPrompt = Ok c →
  keyGiven c = Some key →
  (providerName c ≠ "google" → key ≠ "")
  ∧ (flagKey flags c ≠ "" → key = flagKey flags c)
  ∧ (flagKey flags c = "" →
     key = os_Getenv environ (envKey c)
     ∨ (providerName c = "google" ∧ os_Getenv environ "GOOGLE_API_KEY" = ""
        ∧ key = os_Getenv environ "GEMINI_API_KEY")).
Proof.
  unfold createProvider. intros H Hkey.
  destruct (strings_SplitN modelString ":" 2) as [|a [|b l]]; try done.
  destruct (String.eqb a "anthropic").
  { destruct (String.eqb (anthropicAPIKey flags) "") eqn:Hf; cbv zeta in H;
      rewrite ?Hf in H;
      [apply String.eqb_eq in Hf
      |apply String.eqb_neq in Hf];
      [destruct (String.eqb_spec (os_Getenv environ "ANTHROPIC_API_KEY") "")|];
      simplify_eq/=; split_and!; try done; by left. }
  destruct (String.eqb a "ollama"); [by simplify_eq|].
  destruct (String.eqb a "openai").
  { destruct (String.eqb (openaiAPIKey flags) "") eqn:Hf; cbv zeta in H;
      rewrite ?Hf in H;
      [apply String.eqb_eq in Hf
      |apply String.eqb_neq in Hf];
      [destruct (String.eqb_spec (os_Getenv environ "OPENAI_API_KEY") "")|];
      simplify_eq/=; split_and!; try done; by left. }
  destruct (String.eqb a "google"); [|done].
  cbv zeta in H.
  destruct (String.eqb (googleAPIKey flags) "") eqn:Hf; rewrite ?Hf in H;
    [apply String.eqb_eq in Hf|apply String.eqb_neq in Hf].
  - destruct (String.eqb_spec (os_Getenv environ "GOOGLE_API_KEY") "") as [Hg|Hg];
      simplify_eq/=; split_and!; try done.
    + intros _. right. by rewrite Hg.
    + intros _. by left.
  - simplify_eq/=. split_and!; try done.
Qed.

(** ** The further theorems at concrete inputs *)

(** X1 at the exchange and the window 2. *)
Lemma pruneMessages_bounded_witness :
  Z.of_nat (length [Mock.user "thanks"]) <= 2
  ∧ (length [Mock.user "thanks"] <= length Mock.exchange)%nat.
Proof.
  assert (pruneMessages 2 Mock.exchange = Some [Mock.user "thanks"]) as H
    by (vm_compute; reflexivity).
  exact (pruneMessages_bounded 2 Mock.exchange _ H).
Defined.

(** X2 at the exchange and the window 2. *)
Lemma pruneMessages_idempotent_witness :
  pruneMessages 2 [Mock.user "thanks"] = Some [Mock.user "thanks"].
Proof.
  assert (pruneMessages 2 Mock.exchange = Some [Mock.user "thanks"]) as H
    by (vm_compute; reflexivity).
  exact (pruneMessages_idempotent 2 Mock.exchange _ H).
Defined.

(** X4 at the exchange and the window 2. *)
Lemma pruneMessages_drops_only_orphans_witness :
  0 <= 2 < Z.of_nat (length Mock.exchange)
  ∧ ∃ P, pruneMessages 2 Mock.exchange = Some P
         ∧ ∀ b, segment P b ↔
                segment (window 2 Mock.exchange) b
                ∧ ¬ orphan (window 2 Mock.exchange) b.
Proof.
  assert (0 <= 2 < Z.of_nat (length Mock.exchange)) as H by (simpl; lia).
  split; [exact H|]. exact (pruneMessages_drops_only_orphans 2 Mock.exchange H).
Defined.

(** X5 at the exchange and the window 2. *)
Lemma pruneMessages_shrinks_witness :
  ∃ T', T' `sublist_of` Mock.exchange ∧ Forall2 shrunk [Mock.user "thanks"] T'.
Proof.
  assert (pruneMessages 2 Mock.exchange = Some [Mock.user "thanks"]) as H
    by (vm_compute; reflexivity).
  exact (pruneMessages_shrinks 2 Mock.exchange _ H).
Defined.

(** X6 at the tool [forecast] of the server [weather]. *)
Lemma qualified_name_routes_witness :
  strings_Split "weather__forecast" "__" = ["weather"; "forecast"].
Proof.
  destruct (qualified_name_routes (env := Mock.env) Mock.mcpClients (Mock.say "")
              (blank (Mock.world [])) (Mock.invoke "c1" "weather__forecast")
              "weather" "forecast" Mock.weather "{}"
              (Ok {| ResultContent := Some Mock.forecast |}) (Mock.world [])
              eq_refl eq_refl eq_refl eq_refl eq_refl eq_refl eq_refl)
    as [Hsplit _].
  exact Hsplit.
Defined.


Lemma answered_nil : answered [].
Proof. intros i m b Hi. by rewrite lookup_nil in Hi. Qed.

(** X8 at the empty transcript and a turn with a tool call. *)
Lemma results_stay_answered_witness :
  answered []
  ∧ answered
      [Mock.user "hi";
       Mock.assistant [textBlock "let me look"; toolUseBlock "c1" "weather__forecast" "{}"];
       Mock.tool (toolResultBlock "c1" "sunny warm" (RawItems Mock.forecast));
       Mock.assistant [textBlock "it is sunny"]].
Proof.
  split; [exact answered_nil|].
  destruct (results_stay_answered (env := Mock.env) Mock.mcpClients [] []
              answered_nil) as [Hrun _].
  eapply (Hrun 2%nat "hi"
            (Mock.start [Ok (Mock.ask "let me look" "c1" "weather__forecast");
                         Ok (Mock.say "it is sunny")])).
  vm_compute. reflexivity.
Defined.

(** X9 at a prompt answered with text. *)
Lemma runPrompt_ends_without_invocations_witness :
  ∃ s', runPrompt (env := Mock.env) 1 Mock.mcpClients [] "hi" []
          (Mock.start [Ok (Mock.say "hello")])
        = Some (None, [Mock.user "hi"; Mock.assistant [textBlock "hello"]], s').
Proof.
  destruct (runPrompt_ends_without_invocations (env := Mock.env) Mock.mcpClients []
              "hi" [] (Mock.start [Ok (Mock.say "hello")]) (Mock.say "hello")
              (Mock.world []) 0 eq_refl (or_intror eq_refl) eq_refl)
    as (s' & t & Hrun & _).
  exists s'. exact Hrun.
Defined.

(** X10 at a reply that asks for a tool, followed by a reply with text. *)
Lemma runPromptNonInteractive_appends_no_text_witness :
  ∃ added,
    [Mock.assistant [toolUseBlock "c1" "weather__forecast" "{}"];
     Mock.tool (toolResultBlock "c1" "sunny warm" (RawItems Mock.forecast))]
    = [] ++ added
    ∧ ∀ m b, m ∈ added → b ∈ Content m →
             Type_ b = "tool_use" ∨ Type_ b = "tool_result".
Proof.
  eapply (runPromptNonInteractive_appends_no_text (env := Mock.env) Mock.mcpClients []
            2 "hi" []
            (Mock.start [Ok (Mock.ask "" "c1" "weather__forecast");
                         Ok (Mock.say "it is sunny")])).
  vm_compute. reflexivity.
Defined.

(** X11 at a request answered with text, over a transcript of three turns
    and the window 2. *)
Lemma chatHandler_keeps_window_witness :
  Z.of_nat (length [Mock.user "thanks"]) <= 2.
Proof.
  eapply (chatHandler_keeps_window (env := Mock.env) Scenario.decodeRequest 2 1
            Mock.mcpClients [] "hi" Mock.exchange
            (Mock.start [Ok (Mock.say "hello")]) 200 {| Message_ := "hello" |}).
  - vm_compute. reflexivity.
  - discriminate.
Defined.

(** X12 at the same transcript, window and reply, in the interactive loop. *)
Lemma hostIteration_first_question_witness :
  0 <= 2
  ∧ ∃ step,
      hostIteration (env := Mock.env) Scenario.handleSlashCommand 2 1 Mock.mcpClients []
        (Entered "hi") Mock.exchange (Mock.start [Ok (Mock.say "hello")])
      = Some step
      ∧ ∃ t, trace (hostState step) = [] ++ t
             ∧ (asked t = []
                ∨ ∃ prompt llmMessages rest,
                    Entered "hi" = Entered prompt
                    ∧ asked t = (prompt, llmMessages) :: rest
                    ∧ Z.of_nat (length llmMessages) <= 2 + 1).
Proof.
  assert (0 <= 2) as H by lia. split; [exact H|].
  destruct (hostIteration (env := Mock.env) Scenario.handleSlashCommand 2 1
              Mock.mcpClients [] (Entered "hi") Mock.exchange
              (Mock.start [Ok (Mock.say "hello")])) as [step|] eqn:Hstep;
    [|discriminate].
  exists step. split; [reflexivity|].
  exact (hostIteration_first_question (env := Mock.env) _ _ _ _ _ _ _ _ _ H Hstep).
Defined.

(** X13 at a model whose name has a colon of its own. *)
Lemma createProvider_reads_model_witness :
  createProvider Scenario.noFlags Scenario.environ "ollama:qwen2.5:3b" "" 
  = Ok (NewOllama "qwen2.5:3b" "")
  ∧ "ollama:qwen2.5:3b" = "ollama" +:+ ":" +:+ "qwen2.5:3b".
Proof.
  assert (createProvider Scenario.noFlags Scenario.environ "ollama:qwen2.5:3b" ""
          = Ok (NewOllama "qwen2.5:3b" "")) as H by reflexivity.
  split; [exact H|].
  exact (createProvider_reads_model _ _ _ _ _ H).
Defined.

(** X14 at a model string without colon and at an unknown provider. *)
Lemma createProvider_rejects_witness :
  createProvider Scenario.noFlags Scenario.environ "gpt-4" ""
  = Err "invalid model format. Expected provider:model, got gpt-4"
  ∧ createProvider Scenario.noFlags Scenario.environ "mistral:large" ""
    = Err "unsupported provider: mistral".
Proof.
  destruct (createProvider_rejects Scenario.noFlags Scenario.environ "")
    as [Hformat Hprovider].
  split.
  - exact (Hformat "gpt-4" eq_refl).
  - apply (Hprovider "mistral" "large" eq_refl).
    intros Hin. repeat (apply elem_of_cons in Hin as [Hin|Hin]; [discriminate|]).
    by apply elem_of_nil in Hin.
Defined.

(** X15 at [anthropic] with the key in the environment only. *)
Lemma createProvider_resolves_key_witness :
  createProvider Scenario.noFlags Scenario.environ "anthropic:claude-3-5-sonnet-latest" ""
  = Ok (NewAnthropic "sk-ant" "" "claude-3-5-sonnet-latest" "")
  ∧ "sk-ant" = os_Getenv Scenario.environ "ANTHROPIC_API_KEY".
Proof.
  assert (createProvider Scenario.noFlags Scenario.environ
            "anthropic:claude-3-5-sonnet-latest" ""
          = Ok (NewAnthropic "sk-ant" "" "claude-3-5-sonnet-latest" "")) as H
    by (vm_compute; reflexivity).
  split; [exact H|].
  destruct (createProvider_resolves_key _ _ _ _ _ "sk-ant" H eq_refl)
    as (_ & _ & Henv).
  destruct (Henv eq_refl) as [Hkey|(Hgoogle & _)]; [exact Hkey|discriminate].
Defined.
